(** * F-launcher: the process supervisor of [launcher.py]

    A shallow embedding of [FuxkComfyLauncher] (command builder, log sink,
    start/stop, output reader, health monitor) and of the [/api/status]
    and [/api/logs] readers, with the properties of its specification
    checked against it.

    Conventions of the embedding.
    - A Python [str] is a [string] of 8-bit characters.  Case mapping and
      white space are those of ASCII; characters above 127 are opaque.
      Python itself lowers some of them and counts some as white space
      (U+0085, U+00A0, U+2028, U+3000 among them), so what is proved of
      [lower], [strip] and [split] is proved of ASCII text.
    - A configuration value is a [value]: JSON null, bool, int or string.
    - The operating system, the clock and the file system are read through
      an [env] record of oracles handed to each operation.
    - [self.logs = deque(maxlen=2000)] is a list, oldest entry first.
    - A clock reading of [time.time()] is a whole number of microseconds.
    - A request, one line of a reader and the code of a monitor from one
      sleep to the next each run as one step, with no other thread in
      between; the code itself takes no lock. *)

From Stdlib Require Import ZArith Ascii DecimalString.
From stdpp Require Import gmap strings list.

Local Open Scope Z_scope.

(* ===================================================================== *)
(** ** Python strings *)
(* ===================================================================== *)

Module PyStr.

(** [c.lower()] on one ASCII character; the characters above 127 are left
    as they are. *)
Definition lower_char (c : ascii) : ascii :=
  let n := nat_of_ascii c in
  if ((65 <=? n)%nat && (n <=? 90)%nat)%bool then ascii_of_nat (n + 32) else c.

(** [s.lower()] *)
Fixpoint lower (s : string) : string :=
  match s with
  | EmptyString => EmptyString
  | String c s' => String (lower_char c) (lower s')
  end.

(** [str.isspace] on one ASCII character: tab, line feed, vertical tab,
    form feed, carriage return, the four separators 28..31 and space.  No
    character above 127 counts as white space here. *)
Definition is_space (c : ascii) : bool :=
  let n := nat_of_ascii c in
  (((9 <=? n)%nat && (n <=? 13)%nat) || ((28 <=? n)%nat && (n <=? 32)%nat))%bool.

(** [hay.startswith(needle)] *)
Fixpoint startswith (needle hay : string) : bool :=
  match needle, hay with
  | EmptyString, _ => true
  | String _ _, EmptyString => false
  | String a n', String b h' => (if decide (a = b) then startswith n' h' else false)
  end.

(** [needle in hay] *)
Fixpoint contains (needle hay : string) : bool :=
  (startswith needle hay ||
   match hay with
   | EmptyString => false
   | String _ h' => contains needle h'
   end)%bool.

(** [s.lstrip()] *)
Fixpoint lstrip (s : string) : string :=
  match s with
  | EmptyString => EmptyString
  | String c s' => if is_space c then lstrip s' else s
  end.

(** [s.rstrip()]: a character is kept when it is not white space or
    when something survives to its right. *)
Fixpoint rstrip (s : string) : string :=
  match s with
  | EmptyString => EmptyString
  | String c s' =>
      match rstrip s' with
      | EmptyString => if is_space c then EmptyString else String c EmptyString
      | r => String c r
      end
  end.

(** [s.strip()] *)
Definition strip (s : string) : string := rstrip (lstrip s).

(** [s.split()] with no argument: maximal runs of non-space characters.
    [cur] is the word being read, in reverse. *)
Fixpoint split_aux (cur : list ascii) (s : string) : list string :=
  match s with
  | EmptyString =>
      match cur with
      | [] => []
      | _ => [String.string_of_list_ascii (rev cur)]
      end
  | String c s' =>
      if is_space c then
        match cur with
        | [] => split_aux [] s'
        | _ => String.string_of_list_ascii (rev cur) :: split_aux [] s'
        end
      else split_aux (c :: cur) s'
  end.

Definition split (s : string) : list string := split_aux [] s.

(** [sep.join(l)] *)
Fixpoint join (sep : string) (l : list string) : string :=
  match l with
  | [] => EmptyString
  | [x] => x
  | x :: l' => x +:+ sep +:+ join sep l'
  end.

(** [s[:-k]] for [k > 0]: all but the last [k] characters. *)
Definition drop_last (k : nat) (s : string) : string :=
  String.substring 0 (String.length s - k) s.

(** [str(n).zfill(w)] for a natural number. *)
Definition zfill (w : nat) (n : N) : string :=
  let d := NilZero.string_of_uint (N.to_uint n) in
  String.string_of_list_ascii (replicate (w - String.length d) "0"%char) +:+ d.

(** [str(n)] for an integer. *)
Definition of_Z (n : Z) : string := NilZero.string_of_int (Z.to_int n).

End PyStr.

(* ===================================================================== *)
(** ** Configuration values *)
(* ===================================================================== *)

(** The values a configuration holds once loaded with [json.load]:
    null, booleans, integers and strings. *)
Inductive value :=
| VNone
| VBool (b : bool)
| VInt (n : Z)
| VStr (s : string).

Global Instance value_eq_dec : EqDecision value.
Proof. solve_decision. Defined.

(** Truth value of [if v:]. *)
Definition truthy (v : value) : bool :=
  match v with
  | VNone => false
  | VBool b => b
  | VInt n => negb (n =? 0)
  | VStr s => negb (String.eqb s "")
  end.

(** [str(v)], as an f-string renders it. *)
Definition py_str (v : value) : string :=
  match v with
  | VNone => "None"
  | VBool true => "True"
  | VBool false => "False"
  | VInt n => PyStr.of_Z n
  | VStr s => s
  end.

(** [type(v).__name__] *)
Definition type_name (v : value) : string :=
  match v with
  | VNone => "NoneType"
  | VBool _ => "bool"
  | VInt _ => "int"
  | VStr _ => "str"
  end.

(** [a != b].  A bool compares as the integer 0 or 1. *)
Definition py_ne (a b : value) : bool :=
  match a, b with
  | VNone, VNone => false
  | VStr x, VStr y => negb (String.eqb x y)
  | (VBool _ | VInt _), (VBool _ | VInt _) =>
      let num v := match v with VBool true => 1 | VInt n => n | _ => 0 end in
      negb (num a =? num b)
  | _, _ => true
  end.

(** [n < v] for an int [n]: [None] stands for the [TypeError] raised when
    [v] is not a number. *)
Definition py_int_lt (n : Z) (v : value) : option bool :=
  match v with
  | VInt m => Some (n <? m)
  | VBool b => Some (n <? (if b then 1 else 0))
  | _ => None
  end.

(** A raised exception, as [str(e)] shows it. *)
Definition exn := string.

(** [' '.join(cmd)]: a [TypeError] at the first item that is not a [str]. *)
Fixpoint join_items (i : nat) (cmd : list value) : exn + list string :=
  match cmd with
  | [] => inr []
  | VStr s :: rest =>
      match join_items (S i) rest with
      | inl e => inl e
      | inr l => inr (s :: l)
      end
  | v :: _ =>
      inl ("sequence item " +:+ PyStr.of_Z (Z.of_nat i) +:+ ": expected str instance, "
           +:+ type_name v +:+ " found")
  end.

Definition py_join (cmd : list value) : exn + string :=
  match join_items 0 cmd with
  | inl e => inl e
  | inr l => inr (PyStr.join " " l)
  end.

(* ===================================================================== *)
(** ** Clock readings *)
(* ===================================================================== *)

(** A [datetime.now()] reading. *)
Record datetime := {
  year : N; month : N; day : N;
  hour : N; minute : N; second : N; microsecond : N
}.

(** [dt.strftime("%H:%M:%S.%f")] *)
Definition strftime_HMSf (dt : datetime) : string :=
  PyStr.zfill 2 (hour dt) +:+ ":" +:+ PyStr.zfill 2 (minute dt) +:+ ":"
  +:+ PyStr.zfill 2 (second dt) +:+ "." +:+ PyStr.zfill 6 (microsecond dt).

(** [dt.isoformat()]: the fraction is left out when it is zero. *)
Definition isoformat (dt : datetime) : string :=
  PyStr.zfill 4 (year dt) +:+ "-" +:+ PyStr.zfill 2 (month dt) +:+ "-"
  +:+ PyStr.zfill 2 (day dt) +:+ "T" +:+ PyStr.zfill 2 (hour dt) +:+ ":"
  +:+ PyStr.zfill 2 (minute dt) +:+ ":" +:+ PyStr.zfill 2 (second dt)
  +:+ (if (microsecond dt =? 0)%N then "" else "." +:+ PyStr.zfill 6 (microsecond dt)).

(** A [time.time()] reading, in microseconds since the epoch. *)
Definition pytime := Z.

(* ===================================================================== *)
(** ** Log entries and the bounded deque *)
(* ===================================================================== *)

(** [class LogEntry] *)
Record LogEntry := {
  timestamp : datetime;
  message : string;
  level : string
}.

(** What [LogEntry.to_dict] returns. *)
Record LogDict := {
  d_timestamp : string;
  d_message : string;
  d_level : string
}.

Definition to_dict (e : LogEntry) : LogDict :=
  {| d_timestamp := PyStr.drop_last 3 (strftime_HMSf (timestamp e));
     d_message := message e;
     d_level := level e |}.

(** [collections.deque(maxlen=...)], oldest element first. *)
Module Deque.
Section Ops.
Context {A : Type}.

(** [d.append(x)]: nothing when [maxlen] is 0; otherwise the element
    goes to the right end and, when the bound is exceeded, one element
    is popped from the left end. *)
Definition append (maxlen : nat) (d : list A) (x : A) : list A :=
  if (maxlen =? 0)%nat then d
  else
    let d' := d ++ [x] in
    if (maxlen <? length d')%nat then tail d' else d'.

(** [d.clear()] *)
Definition clear (d : list A) : list A := [].
End Ops.
End Deque.

(** [deque(maxlen=2000)] in [FuxkComfyLauncher.__init__]. *)
Definition LOGS_MAXLEN : nat := 2000.

(* ===================================================================== *)
(** ** The launcher object and its environment *)
(* ===================================================================== *)

(** A [subprocess.Popen] object.  Whether its child has exited is a
    question to the operating system ([poll] below). *)
Record Popen := { pid : Z }.

(** One record of [self.history]. *)
Record history_entry := {
  h_timestamp : string;
  h_command : string;
  h_config : gmap string value
}.

(** The fields of [FuxkComfyLauncher] the supervisor works on
    ([process_pid] is [self.system_monitor.process_pid]). *)
Record launcher := {
  process : option Popen;
  is_running : bool;
  config : gmap string value;
  history : list history_entry;
  logs : list LogEntry;
  restart_attempts : Z;
  last_crash_time : option pytime;
  start_time : option pytime;
  process_pid : option Z
}.

(** What lines 444-531 of [stop_fuxkcomfy] (taskkill on Windows, psutil
    elsewhere) do to the launcher: the entries they log, in order, and the
    exception they leave with, if any. *)
Record kill_outcome := {
  k_logs : list (string * string);
  k_raised : option exn
}.

(** Answers of the world outside the launcher during one operation. *)
Record env := {
  sys_executable : string;                  (* sys.executable *)
  isfile : value -> bool;                   (* os.path.isfile *)
  dt_now : datetime;                        (* datetime.now() *)
  time_time : pytime;                       (* time.time() *)
  popen : list string -> exn + Z;           (* subprocess.Popen(cmd, ...): pid or error *)
  poll : Z -> option Z;                     (* Popen.poll() of the child with that pid *)
  psutil_is_running : Z -> bool;            (* psutil.Process(pid).is_running(); NoSuchProcess is false *)
  kill_tree : Z -> bool -> kill_outcome;    (* lines 444-531, given pid and force *)
  final_kill : Z -> option exn              (* process.kill(); process.wait(timeout=3) *)
}.

(** What an operation asks of the world besides reading it. *)
Inductive thread_target := read_output_target | monitor_health_target.

Inductive effect :=
| EffSaveHistory (h : list history_entry)   (* config_manager.save_history *)
| EffPopen (cmd : list string) (r : exn + Z) (* subprocess.Popen and what came of it *)
| EffThread (t : thread_target).            (* threading.Thread(target=...).start() *)

(** The dictionaries [start_fuxkcomfy] and [stop_fuxkcomfy] return. *)
Record result := {
  success : bool;
  r_message : string;
  r_pid : option Z
}.

(** [FuxkComfyLauncher.__init__], given what [config_manager] loaded. *)
Definition init_launcher (cfg : gmap string value) (hist : list history_entry) : launcher :=
  {| process := None; is_running := false; config := cfg; history := hist;
     logs := []; restart_attempts := 0; last_crash_time := None;
     start_time := None; process_pid := None |}.

Definition set_logs (l : list LogEntry) (st : launcher) : launcher :=
  {| process := process st; is_running := is_running st; config := config st;
     history := history st; logs := l; restart_attempts := restart_attempts st;
     last_crash_time := last_crash_time st; start_time := start_time st;
     process_pid := process_pid st |}.

Definition set_process (p : option Popen) (st : launcher) : launcher :=
  {| process := p; is_running := is_running st; config := config st;
     history := history st; logs := logs st; restart_attempts := restart_attempts st;
     last_crash_time := last_crash_time st; start_time := start_time st;
     process_pid := process_pid st |}.

Definition set_is_running (b : bool) (st : launcher) : launcher :=
  {| process := process st; is_running := b; config := config st;
     history := history st; logs := logs st; restart_attempts := restart_attempts st;
     last_crash_time := last_crash_time st; start_time := start_time st;
     process_pid := process_pid st |}.

Definition set_history (h : list history_entry) (st : launcher) : launcher :=
  {| process := process st; is_running := is_running st; config := config st;
     history := h; logs := logs st; restart_attempts := restart_attempts st;
     last_crash_time := last_crash_time st; start_time := start_time st;
     process_pid := process_pid st |}.

Definition set_restart_attempts (n : Z) (st : launcher) : launcher :=
  {| process := process st; is_running := is_running st; config := config st;
     history := history st; logs := logs st; restart_attempts := n;
     last_crash_time := last_crash_time st; start_time := start_time st;
     process_pid := process_pid st |}.

Definition set_last_crash_time (t : option pytime) (st : launcher) : launcher :=
  {| process := process st; is_running := is_running st; config := config st;
     history := history st; logs := logs st; restart_attempts := restart_attempts st;
     last_crash_time := t; start_time := start_time st;
     process_pid := process_pid st |}.

Definition set_start_time (t : option pytime) (st : launcher) : launcher :=
  {| process := process st; is_running := is_running st; config := config st;
     history := history st; logs := logs st; restart_attempts := restart_attempts st;
     last_crash_time := last_crash_time st; start_time := t;
     process_pid := process_pid st |}.

Definition set_process_pid (p : option Z) (st : launcher) : launcher :=
  {| process := process st; is_running := is_running st; config := config st;
     history := history st; logs := logs st; restart_attempts := restart_attempts st;
     last_crash_time := last_crash_time st; start_time := start_time st;
     process_pid := p |}.

(* ===================================================================== *)
(** ** Log sink: [log_message], [clear_logs], [get_logs] *)
(* ===================================================================== *)

(** [get_config_value]: [self.config.get(key, default)] *)
Definition get_config_value (st : launcher) (key : string) (dflt : value) : value :=
  default dflt (config st !! key).

(** [log_message] *)
Definition log_message (e : env) (msg lvl : string) (st : launcher) : launcher :=
  let entry := {| timestamp := dt_now e; message := msg; level := lvl |} in
  set_logs (Deque.append LOGS_MAXLEN (logs st) entry) st.

(** [clear_logs] *)
Definition clear_logs (e : env) (st : launcher) : launcher :=
  log_message e "Logs cleared" "info" (set_logs (Deque.clear (logs st)) st).

(** [seq[start:]] *)
Definition py_slice_from {A} (start : Z) (l : list A) : list A :=
  let n := Z.of_nat (length l) in
  let start' := if start <? 0 then Z.max (n + start) 0 else Z.min start n in
  drop (Z.to_nat start') l.

(** The loop of [get_logs]; [filtered_logs] is the list built so far. *)
Fixpoint get_logs_loop (level_filter search : string) (ls : list LogEntry)
    (filtered_logs : list LogDict) : list LogDict :=
  match ls with
  | [] => filtered_logs
  | log :: rest =>
      if (negb (String.eqb level_filter "all") && negb (String.eqb (level log) level_filter))%bool
      then get_logs_loop level_filter search rest filtered_logs
      else if (negb (String.eqb search "")
               && negb (PyStr.contains (PyStr.lower search) (PyStr.lower (message log))))%bool
      then get_logs_loop level_filter search rest filtered_logs
      else get_logs_loop level_filter search rest (filtered_logs ++ [to_dict log])
  end.

(** [get_logs] *)
Definition get_logs (st : launcher) (level_filter search : string) (limit : Z) : list LogDict :=
  let filtered_logs := get_logs_loop level_filter search (logs st) [] in
  py_slice_from (- limit) filtered_logs.

(* ===================================================================== *)
(** ** Command builder: [build_command] *)
(* ===================================================================== *)

(** [if cond: cmd.append(tok)] *)
Definition append_if (cond : bool) (tok : string) (cmd : list value) : list value :=
  if cond then cmd ++ [VStr tok] else cmd.

(** [if cond: cmd.extend(items)] *)
Definition extend_if (cond : bool) (items : list value) (cmd : list value) : list value :=
  if cond then cmd ++ items else cmd.

(** [build_command]: the argument vector, or the exception raised on the
    way, and the launcher after the call. *)
Definition build_command (e : env) (st : launcher) : (exn + list value) * launcher :=
  let get := get_config_value st in
  let python_exe := get "python_executable" (VStr "") in
  let '(cmd, st') :=
    if (truthy python_exe && isfile e python_exe)%bool
    then ([python_exe; VStr "-s"; VStr "main.py"],
          log_message e ("Using custom Python: " +:+ py_str python_exe) "info" st)
    else ([VStr (sys_executable e); VStr "-s"; VStr "main.py"],
          log_message e ("Using system Python: " +:+ sys_executable e) "info" st) in
  let cmd := cmd ++ [VStr "--windows-standalone-build"] in
  let cmd := cmd ++ [VStr "--port"; get "port" (VStr "8188")] in
  let cmd := cmd ++ [VStr "--listen"; get "listen" (VStr "0.0.0.0")] in
  let cmd := append_if (truthy (get "auto_launch" (VBool true))) "--auto-launch" cmd in
  let cmd := append_if (truthy (get "cpu_mode" (VBool false))) "--cpu" cmd in
  let cmd := append_if (negb (truthy (get "gpu_opt" (VBool true)))) "--disable-gpu-optimization" cmd in
  let cmd := append_if (truthy (get "lowvram" (VBool false))) "--lowvram" cmd in
  let cmd := append_if (truthy (get "highvram" (VBool false))) "--highvram" cmd in
  let cmd := append_if (truthy (get "normalvram" (VBool false))) "--normalvram" cmd in
  let cmd := append_if (truthy (get "novram" (VBool false))) "--novram" cmd in
  let cmd := append_if (truthy (get "fp16_vae" (VBool false))) "--fp16-vae" cmd in
  let cmd := append_if (truthy (get "fp32_vae" (VBool false))) "--fp32-vae" cmd in
  let cmd := append_if (truthy (get "bf16_unet" (VBool false))) "--bf16-unet" cmd in
  let cmd := append_if (truthy (get "fp16_unet" (VBool false))) "--fp16-unet" cmd in
  let cmd := append_if (truthy (get "fp8_e4m3fn_unet" (VBool false))) "--fp8_e4m3fn-unet" cmd in
  let cmd := append_if (truthy (get "fp8_e5m2_unet" (VBool false))) "--fp8_e5m2-unet" cmd in
  let cmd := append_if (truthy (get "disable_smart_memory" (VBool false))) "--disable-smart-memory" cmd in
  let cmd := append_if (truthy (get "deterministic" (VBool false))) "--deterministic" cmd in
  let cmd := append_if (truthy (get "dont_upcast_attention" (VBool false))) "--dont-upcast-attention" cmd in
  let cmd := append_if (truthy (get "force_upcast_attention" (VBool false))) "--force-upcast-attention" cmd in
  let cmd := append_if (truthy (get "disable_xformers" (VBool false))) "--disable-xformers" cmd in
  let cmd := append_if (truthy (get "use_split_cross_attention" (VBool false))) "--use-split-cross-attention" cmd in
  let cmd := append_if (truthy (get "use_quad_cross_attention" (VBool false))) "--use-quad-cross-attention" cmd in
  let cmd := append_if (truthy (get "use_sage_attention" (VBool false))) "--use-sage-attention" cmd in
  let cmd := append_if (truthy (get "use_flash_attention" (VBool false))) "--use-flash-attention" cmd in
  let cmd := append_if (truthy (get "directml" (VBool false))) "--directml" cmd in
  let cmd := append_if (truthy (get "gpu_only" (VBool false))) "--gpu-only" cmd in
  let cmd := append_if (truthy (get "cpu_vae" (VBool false))) "--cpu-vae" cmd in
  let cmd := append_if (truthy (get "async_offload" (VBool false))) "--async-offload" cmd in
  let cmd := append_if (truthy (get "disable_mmap" (VBool false))) "--disable-mmap" cmd in
  let cmd := append_if (truthy (get "force_channels_last" (VBool false))) "--force-channels-last" cmd in
  let reserve_vram := get "reserve_vram" (VStr "") in
  let cmd := extend_if (truthy reserve_vram) [VStr "--reserve-vram"; reserve_vram] cmd in
  let preview_method := get "preview_method" (VStr "auto") in
  let cmd := extend_if (truthy preview_method && py_ne preview_method (VStr "auto"))%bool
               [VStr "--preview-method"; preview_method] cmd in
  let preview_size := get "preview_size" (VStr "") in
  let cmd := extend_if (truthy preview_size) [VStr "--preview-size"; preview_size] cmd in
  let extra_args := get "extra_args" (VStr "") in
  if truthy extra_args then
    match extra_args with
    | VStr s => (inr (cmd ++ (VStr <$> PyStr.split s)), st')
    | v => (inl ("'" +:+ type_name v +:+ "' object has no attribute 'split'"), st')
    end
  else (inr cmd, st').

(** [ConfigManager.default_config] *)
Definition default_config : gmap string value :=
  list_to_map [
    ("port", VStr "8188"); ("listen", VStr "0.0.0.0");
    ("auto_launch", VBool true); ("gpu_opt", VBool true);
    ("cpu_mode", VBool false); ("lowvram", VBool false);
    ("highvram", VBool false); ("normalvram", VBool false);
    ("novram", VBool false); ("fp16_vae", VBool false);
    ("fp32_vae", VBool false); ("bf16_unet", VBool false);
    ("fp16_unet", VBool false); ("fp8_e4m3fn_unet", VBool false);
    ("fp8_e5m2_unet", VBool false); ("disable_smart_memory", VBool false);
    ("deterministic", VBool false); ("dont_upcast_attention", VBool false);
    ("force_upcast_attention", VBool false); ("disable_xformers", VBool false);
    ("use_pytorch_cross_attention", VBool false);
    ("use_split_cross_attention", VBool false);
    ("use_quad_cross_attention", VBool false);
    ("use_sage_attention", VBool false); ("use_flash_attention", VBool false);
    ("directml", VBool false); ("gpu_only", VBool false);
    ("reserve_vram", VStr ""); ("cpu_vae", VBool false);
    ("async_offload", VBool false); ("disable_mmap", VBool false);
    ("force_channels_last", VBool false); ("preview_method", VStr "auto");
    ("preview_size", VStr ""); ("extra_args", VStr "");
    ("python_executable", VStr ""); ("language", VStr "en");
    ("theme", VStr "dark"); ("auto_restart", VBool false);
    ("max_restart_attempts", VInt 3); ("log_level", VStr "all")
  ].

(** [update_config], without the save to disk: [self.config.update(updates)] *)
Definition update_config (updates : gmap string value) (st : launcher) : launcher :=
  {| process := process st; is_running := is_running st; config := updates ∪ config st;
     history := history st; logs := logs st; restart_attempts := restart_attempts st;
     last_crash_time := last_crash_time st; start_time := start_time st;
     process_pid := process_pid st |}.

(* ===================================================================== *)
(** ** Process controller: [start_fuxkcomfy], [stop_fuxkcomfy], restart *)
(* ===================================================================== *)

Definition mk_result (ok : bool) (msg : string) (p : option Z) : result :=
  {| success := ok; r_message := msg; r_pid := p |}.

(** The [except Exception as e] handler of [start_fuxkcomfy]. *)
Definition start_failed (e : env) (ex : exn) (st : launcher) (eff : list effect)
    : result * launcher * list effect :=
  (mk_result false ("Start failed: " +:+ ex) None,
   log_message e ("Failed to start process: " +:+ ex) "error" st,
   eff).

(** [start_fuxkcomfy] *)
Definition start_fuxkcomfy (e : env) (st : launcher) : result * launcher * list effect :=
  if is_running st then (mk_result false "Process already running" None, st, [])
  else
    let '(built, st1) := build_command e st in
    match built with
    | inl ex => start_failed e ex st1 []
    | inr cmd =>
        match join_items 0 cmd with
        | inl ex => start_failed e ex st1 []
        | inr argv =>
            let cmd_str := PyStr.join " " argv in
            let st2 := log_message e ("Starting: " +:+ cmd_str) "info" st1 in
            let st3 := set_history (history st2 ++
                         [{| h_timestamp := isoformat (dt_now e);
                             h_command := cmd_str;
                             h_config := config st2 |}]) st2 in
            let saved := EffSaveHistory (history st3) in
            match popen e argv with
            | inl ex => start_failed e ex st3 [saved; EffPopen argv (inl ex)]
            | inr p =>
                let st4 := set_process (Some {| pid := p |}) st3 in
                let st5 := set_is_running true st4 in
                let st6 := set_start_time (Some (time_time e)) st5 in
                let st7 := set_process_pid (Some p) st6 in
                let st8 := set_restart_attempts 0 st7 in
                let st9 := log_message e
                             ("Process started successfully (PID: " +:+ PyStr.of_Z p +:+ ")")
                             "success" st8 in
                (mk_result true "Process started successfully" (Some p), st9,
                 [saved; EffPopen argv (inr p);
                  EffThread read_output_target; EffThread monitor_health_target])
            end
        end
    end.

(** [if self.system_monitor.process_pid:] *)
Definition pid_truthy (p : option Z) : bool :=
  match p with
  | Some n => negb (n =? 0)
  | None => false
  end.

Definition log_all (e : env) (entries : list (string * string)) (st : launcher) : launcher :=
  foldl (fun s ml => log_message e ml.1 ml.2 s) st entries.

(** The three assignments that end both the [try] body and the
    [except] handler of [stop_fuxkcomfy]. *)
Definition stop_reset (st : launcher) : launcher :=
  set_start_time None (set_process_pid None (set_is_running false st)).

(** From [try:] to the end of [stop_fuxkcomfy], with the target [pid'] resolved. *)
Definition stop_attempt (e : env) (force : bool) (pid' : Z) (st : launcher)
    : result * launcher :=
  let st1 := log_message e "Stopping process..." "warning" st in
  let st2 := log_message e ("Process PID: " +:+ PyStr.of_Z pid') "info" st1 in
  let out := kill_tree e pid' force in
  let st3 := log_all e (k_logs out) st2 in
  match k_raised out with
  | None => (mk_result true "Process stopped" None, stop_reset st3)
  | Some ex =>
      let st4 := log_message e ("Error stopping process: " +:+ ex) "error" st3 in
      let st5 := log_message e "Attempting final cleanup with psutil..." "warning" st4 in
      let st6 :=
        match process st5 with
        | Some p =>
            match poll e (pid p) with
            | None =>
                match final_kill e (pid p) with
                | None => log_message e "Process killed via subprocess.kill()" "warning" st5
                | Some fe => log_message e ("Final cleanup failed: " +:+ fe) "error" st5
                end
            | Some _ => st5
            end
        | None => st5
        end in
      (mk_result false ("Stop failed: " +:+ ex) None, stop_reset st6)
  end.

(** The branch of [stop_fuxkcomfy] that finds the process dead. *)
Definition stop_confirmed_dead (e : env) (st : launcher) : result * launcher :=
  let st1 := log_message e "Process confirmed not running" "info" st in
  (mk_result false "Process not running" None,
   set_process_pid None (set_process None (set_is_running false st1))).

(** [stop_fuxkcomfy] *)
Definition stop_fuxkcomfy (e : env) (force : bool) (st : launcher) : result * launcher :=
  match process st with
  | None =>
      if pid_truthy (process_pid st) then
        let pid' := default 0 (process_pid st) in
        let st1 := log_message e ("Found orphaned PID " +:+ PyStr.of_Z pid'
                                  +:+ ", attempting cleanup...") "warning" st in
        stop_attempt e force pid' st1
      else (mk_result false "Process not running" None, st)
  | Some p =>
      let pid' := pid p in
      if negb (is_running st) then
        let st1 := log_message e
                     "Process object exists but is_running=False, checking actual status..."
                     "warning" st in
        if psutil_is_running e pid' then
          let st2 := log_message e ("Process " +:+ PyStr.of_Z pid'
                                    +:+ " is actually running, correcting state...") "info" st1 in
          stop_attempt e force pid' (set_is_running true st2)
        else stop_confirmed_dead e st1
      else stop_attempt e force pid' st
  end.


(** The fields of the [/api/status] answer that are read from the launcher
    itself ([uptime] and [process_info] come from the clock and psutil). *)
Record status_view := {
  sv_running : bool;
  sv_config : gmap string value;
  sv_restart_attempts : Z;
  sv_pid : option Z
}.

Definition status (st : launcher) : status_view :=
  {| sv_running := is_running st;
     sv_config := config st;
     sv_restart_attempts := restart_attempts st;
     sv_pid := match process st with Some p => Some (pid p) | None => None end |}.

(* ===================================================================== *)
(** ** Output reader: [read_output] *)
(* ===================================================================== *)

(** Severity of one line, as the body of the [for] loop computes it. *)
Definition classify (line : string) : string :=
  let line_lower := PyStr.lower line in
  if (PyStr.contains "error" line_lower || PyStr.contains "exception" line_lower
      || PyStr.contains "failed" line_lower)%bool then "error"
  else if (PyStr.contains "warning" line_lower || PyStr.contains "warn" line_lower)%bool
  then "warning"
  else if (PyStr.contains "success" line_lower || PyStr.contains "ready" line_lower
           || PyStr.contains "started" line_lower)%bool then "success"
  else "info".

(** One turn of the [for] loop, on the line [readline] returned. *)
Definition read_output_line (e : env) (line : string) (st : launcher) : launcher :=
  if negb (String.eqb line "") then
    let line := PyStr.strip line in
    log_message e line (classify line) st
  else st.

(** The [except Exception as e] handler of [read_output]. *)
Definition read_output_error (e : env) (ex : exn) (st : launcher) : launcher :=
  log_message e ("Output reader error: " +:+ ex) "error" st.

(** Lines 582-591: the stream has ended and [self.process.wait()] has set
    [returncode] to [exit_code]. *)
Definition read_output_exit (e : env) (exit_code : Z) (st : launcher) : launcher :=
  match process st with
  | None => read_output_error e "'NoneType' object has no attribute 'wait'" st
  | Some _ =>
      let st1 := set_is_running false st in
      let st2 := set_process_pid None st1 in
      if exit_code =? 0 then
        log_message e ("Process exited normally (code: " +:+ PyStr.of_Z exit_code +:+ ")")
          "success" st2
      else
        let st3 := log_message e ("Process exited with error code: " +:+ PyStr.of_Z exit_code)
                     "error" st2 in
        set_last_crash_time (Some (time_time e)) st3
  end.

(* ===================================================================== *)
(** ** Health monitor: [monitor_health] *)
(* ===================================================================== *)

(** Where a [monitor_health] thread stands: about to test the loop
    condition, inside [time.sleep(5)], inside [time.sleep(3)], or returned. *)
Inductive monitor_pc := MonLoop | MonSleep | MonSettle | MonDone.

(** The code a [monitor_health] thread runs from one sleep to the next, as
    one step: the test of line 602 and the increment of line 603 are not
    separated ([monitor_check] and [monitor_count] are the two halves). *)
Definition monitor_health_step (e : env) (pc : monitor_pc) (st : launcher)
    : monitor_pc * launcher * list effect :=
  match pc with
  | MonLoop =>
      if is_running st then (MonSleep, st, []) else (MonDone, st, [])
  | MonSleep =>
      match process st with
      | Some p =>
          match poll e (pid p) with
          | Some _ =>
              if truthy (get_config_value st "auto_restart" (VBool false)) then
                let max_attempts := get_config_value st "max_restart_attempts" (VInt 3) in
                match py_int_lt (restart_attempts st) max_attempts with
                | Some true =>
                    let st1 := set_restart_attempts (restart_attempts st + 1) st in
                    let st2 := log_message e
                                 ("Auto-restart attempt " +:+ PyStr.of_Z (restart_attempts st1)
                                  +:+ "/" +:+ py_str max_attempts) "warning" st1 in
                    (MonSettle, st2, [])
                | Some false =>
                    let st1 := log_message e
                                 ("Max restart attempts (" +:+ py_str max_attempts
                                  +:+ ") reached, giving up") "error" st in
                    (MonDone, set_is_running false st1, [])
                | None => (MonDone, st, [])      (* TypeError: the thread dies *)
                end
              else (MonDone, st, [])
          | None => (MonLoop, st, [])
          end
      | None => (MonLoop, st, [])
      end
  | MonSettle =>
      let '(_, st', eff) := start_fuxkcomfy e st in
      (MonDone, st', eff)
  | MonDone => (MonDone, st, [])
  end.

(** The test a [monitor_health] thread makes when it wakes (lines 599 to
    602): the child has exited, [auto_restart] is on and the counter is
    below [max_restart_attempts]; [Some max_attempts] when all three hold. *)
Definition monitor_check (e : env) (st : launcher) : option value :=
  match process st with
  | Some p =>
      match poll e (pid p) with
      | Some _ =>
          if truthy (get_config_value st "auto_restart" (VBool false)) then
            let max_attempts := get_config_value st "max_restart_attempts" (VInt 3) in
            match py_int_lt (restart_attempts st) max_attempts with
            | Some true => Some max_attempts
            | _ => None
            end
          else None
      | None => None
      end
  | None => None
  end.

(** The increment and the log entry that follow the test (lines 603 and
    604).  [monitor_health_step] runs test and increment as one step; a
    second monitor thread that ran between the two would not be seen by
    the test. *)
Definition monitor_count (e : env) (max_attempts : value) (st : launcher) : launcher :=
  let st1 := set_restart_attempts (restart_attempts st + 1) st in
  log_message e ("Auto-restart attempt " +:+ PyStr.of_Z (restart_attempts st1)
                 +:+ "/" +:+ py_str max_attempts) "warning" st1.

(* ===================================================================== *)
(** ** The launcher with its background threads *)
(* ===================================================================== *)

(** Where a [read_output] thread stands: in the [for] loop, or returned. *)
Inductive reader_pc := RdLines | RdDone.

(** The launcher object, the threads started so far (in start order) and
    the pids [subprocess.Popen] has handed out. *)
Record machine := {
  self : launcher;
  monitors : list monitor_pc;
  readers : list reader_pc;
  spawned : list Z
}.

Definition set_self (st : launcher) (m : machine) : machine :=
  {| self := st; monitors := monitors m; readers := readers m; spawned := spawned m |}.

Definition apply_effect (m : machine) (eff : effect) : machine :=
  match eff with
  | EffSaveHistory _ => m
  | EffPopen _ (inl _) => m
  | EffPopen _ (inr p) =>
      {| self := self m; monitors := monitors m; readers := readers m;
         spawned := spawned m ++ [p] |}
  | EffThread read_output_target =>
      {| self := self m; monitors := monitors m; readers := readers m ++ [RdLines];
         spawned := spawned m |}
  | EffThread monitor_health_target =>
      {| self := self m; monitors := monitors m ++ [MonLoop]; readers := readers m;
         spawned := spawned m |}
  end.

Definition apply_effects (m : machine) (effs : list effect) : machine :=
  foldl apply_effect m effs.

(** What can happen next: a request of the HTTP layer, or one of the
    background threads being scheduled. *)
Inductive event :=
| CallStart                                 (* POST /api/start *)
| CallStop (force : bool)                   (* POST /api/stop *)
| CallClearLogs                             (* POST /api/logs/clear *)
| ReaderLine (i : nat) (line : string)      (* reader [i] got a line from readline *)
| ReaderEOF (i : nat)                       (* reader [i] got '' from readline *)
| MonitorStep (i : nat).                    (* monitor [i] runs to its next sleep *)

(** One event, with the answers of the world while it runs.  A reader at
    end of stream stays blocked in [wait()] while the child is alive. *)
Definition step (e : env) (ev : event) (m : machine) : machine :=
  match ev with
  | CallStart =>
      let '(_, st', effs) := start_fuxkcomfy e (self m) in
      apply_effects (set_self st' m) effs
  | CallStop force =>
      let '(_, st') := stop_fuxkcomfy e force (self m) in
      set_self st' m
  | CallClearLogs => set_self (clear_logs e (self m)) m
  | ReaderLine i line =>
      match readers m !! i with
      | Some RdLines => set_self (read_output_line e line (self m)) m
      | _ => m
      end
  | ReaderEOF i =>
      match readers m !! i with
      | Some RdLines =>
          match process (self m) with
          | None =>
              {| self := read_output_exit e 0 (self m); monitors := monitors m;
                 readers := <[i := RdDone]> (readers m); spawned := spawned m |}
          | Some p =>
              match poll e (pid p) with
              | Some code =>
                  {| self := read_output_exit e code (self m); monitors := monitors m;
                     readers := <[i := RdDone]> (readers m); spawned := spawned m |}
              | None => m
              end
          end
      | _ => m
      end
  | MonitorStep i =>
      match monitors m !! i with
      | Some pc =>
          let '(pc', st', effs) := monitor_health_step e pc (self m) in
          apply_effects
            {| self := st'; monitors := <[i := pc']> (monitors m);
               readers := readers m; spawned := spawned m |} effs
      | None => m
      end
  end.

(** A schedule: events in the order they run, each with its environment. *)
Definition run (sched : list (env * event)) (m : machine) : machine :=
  foldl (fun m ee => step ee.1 ee.2 m) m sched.

Definition init_machine (cfg : gmap string value) (hist : list history_entry) : machine :=
  {| self := init_launcher cfg hist; monitors := []; readers := []; spawned := [] |}.

(* ===================================================================== *)
(** ** The specification's wording of classification and of log queries *)
(* ===================================================================== *)

(** The severity rules as the specification lists them: keyword sets in
    the order they are tried, each with the severity it gives. *)
Definition severity_rules : list (list string * string) :=
  [ (["error"; "exception"; "failed"], "error");
    (["warning"; "warn"], "warning");
    (["success"; "ready"; "started"], "success") ].

(** First rule with a keyword contained in the lowered line wins; [info]
    when none does. *)
Fixpoint first_match (rules : list (list string * string)) (line_lower : string) : string :=
  match rules with
  | [] => "info"
  | (keywords, severity) :: rest =>
      if existsb (fun k => PyStr.contains k line_lower) keywords then severity
      else first_match rest line_lower
  end.

Definition classify_spec (line : string) : string :=
  first_match severity_rules (PyStr.lower line).

(** [needle] occurs in [hay]. *)
Definition occurs_in (needle hay : string) : Prop :=
  exists pre post, hay = pre +:+ needle +:+ post.

(** An entry passes the filters of a query: exact severity unless the
    filter is [all], case-insensitive occurrence of the search string
    unless it is empty. *)
Definition passes (level_filter search : string) (log : LogEntry) : Prop :=
  (level_filter = "all" \/ level log = level_filter) /\
  (search = "" \/ occurs_in (PyStr.lower search) (PyStr.lower (message log))).

Definition passesb (level_filter search : string) (log : LogEntry) : bool :=
  ((String.eqb level_filter "all" || String.eqb (level log) level_filter)
   && (String.eqb search "" || PyStr.contains (PyStr.lower search) (PyStr.lower (message log))))%bool.

(** The [k] most recent elements of a list kept oldest first. *)
Definition most_recent {A} (k : nat) (l : list A) : list A :=
  drop (length l - k) l.

(** The query of the specification: the passing entries, cut down to the
    [limit] most recent, oldest first. *)
Definition query_spec (ls : list LogEntry) (level_filter search : string) (limit : nat)
    : list LogDict :=
  to_dict <$> most_recent limit (List.filter (passesb level_filter search) ls).

(** White space and the strings free of it. *)
Fixpoint all_space (s : string) : bool :=
  match s with
  | EmptyString => true
  | String c s' => (PyStr.is_space c && all_space s')%bool
  end.

Fixpoint space_free (s : string) : bool :=
  match s with
  | EmptyString => true
  | String c s' => (negb (PyStr.is_space c) && space_free s')%bool
  end.

(** The characters of the string are ASCII, code points below 128; there
    the white space of Python is the white space of [PyStr.is_space]. *)
Fixpoint ascii_only (s : string) : bool :=
  match s with
  | EmptyString => true
  | String c s' => ((nat_of_ascii c <? 128)%nat && ascii_only s')%bool
  end.


(** Some keyword of the set occurs in the lowered line. *)
Definition has_keyword (keywords : list string) (line : string) : Prop :=
  exists k, k ∈ keywords /\ occurs_in k (PyStr.lower line).

Definition error_keywords : list string := ["error"; "exception"; "failed"].
Definition warning_keywords : list string := ["warning"; "warn"].
Definition success_keywords : list string := ["success"; "ready"; "started"].

(** The two operations that write to the log sink. *)
Inductive sink_op :=
| OpAppend (e : env) (msg lvl : string)     (* log_message *)
| OpClear (e : env).                        (* clear_logs *)

Definition sink_step (st : launcher) (op : sink_op) : launcher :=
  match op with
  | OpAppend e msg lvl => log_message e msg lvl st
  | OpClear e => clear_logs e st
  end.

Definition sink_run (ops : list sink_op) (st : launcher) : launcher :=
  foldl sink_step st ops.

(** A concrete environment for the examples: every spawn gives pid 4242,
    every child polled has exited with code 1, no file exists, and killing
    a process tree works at once. *)
Definition demo_now : datetime :=
  {| year := 2024; month := 1; day := 2;
     hour := 3; minute := 4; second := 5; microsecond := 123456 |}%N.

Definition demo_env : env :=
  {| sys_executable := "/usr/bin/python3";
     isfile := fun _ => false;
     dt_now := demo_now;
     time_time := 1704164645123456;
     popen := fun _ => inr 4242;
     poll := fun _ => Some 1;
     psutil_is_running := fun _ => false;
     kill_tree := fun _ _ =>
       {| k_logs := [("Process terminated gracefully", "success")]; k_raised := None |};
     final_kill := fun _ => None |}.

Definition demo_entry (msg lvl : string) : LogEntry :=
  {| timestamp := demo_now; message := msg; level := lvl |}.

(** The entries handed to the sink since it was last emptied, in the order
    they arrived: [log_message] adds one, [clear_logs] starts again from its
    own "Logs cleared" entry. *)
Definition arrivals_step (acc : list LogEntry) (op : sink_op) : list LogEntry :=
  match op with
  | OpAppend e msg lvl => acc ++ [{| timestamp := dt_now e; message := msg; level := lvl |}]
  | OpClear e => [{| timestamp := dt_now e; message := "Logs cleared"; level := "info" |}]
  end.

Definition arrivals (ops : list sink_op) : list LogEntry :=
  foldl arrivals_step [] ops.

(** [n] appends whose messages are their own numbers: "0", "1", ... *)
Definition numbered_ops (n : nat) : list sink_op :=
  (fun i => OpAppend demo_env (PyStr.of_Z (Z.of_nat i)) "info") <$> seq 0 n.

(** Two error entries around an info entry. *)
Definition three_logs : launcher :=
  sink_run [OpAppend demo_env "CUDA error" "error";
            OpAppend demo_env "loading" "info";
            OpAppend demo_env "load failed" "error"]
    (init_launcher default_config []).

(* ===================================================================== *)
(** ** A tabular view of [build_command] *)
(* ===================================================================== *)

(** The message [build_command] logs. *)
Definition python_message (e : env) (st : launcher) : string :=
  let python_exe := get_config_value st "python_executable" (VStr "") in
  if (truthy python_exe && isfile e python_exe)%bool
  then "Using custom Python: " +:+ py_str python_exe
  else "Using system Python: " +:+ sys_executable e.

(** The boolean options [build_command] tests, in the order it tests
    them: key, default, whether the test is negated, and the token. *)
Definition flag_table : list (string * bool * bool * string) :=
  [ ("auto_launch", true, false, "--auto-launch");
    ("cpu_mode", false, false, "--cpu");
    ("gpu_opt", true, true, "--disable-gpu-optimization");
    ("lowvram", false, false, "--lowvram");
    ("highvram", false, false, "--highvram");
    ("normalvram", false, false, "--normalvram");
    ("novram", false, false, "--novram");
    ("fp16_vae", false, false, "--fp16-vae");
    ("fp32_vae", false, false, "--fp32-vae");
    ("bf16_unet", false, false, "--bf16-unet");
    ("fp16_unet", false, false, "--fp16-unet");
    ("fp8_e4m3fn_unet", false, false, "--fp8_e4m3fn-unet");
    ("fp8_e5m2_unet", false, false, "--fp8_e5m2-unet");
    ("disable_smart_memory", false, false, "--disable-smart-memory");
    ("deterministic", false, false, "--deterministic");
    ("dont_upcast_attention", false, false, "--dont-upcast-attention");
    ("force_upcast_attention", false, false, "--force-upcast-attention");
    ("disable_xformers", false, false, "--disable-xformers");
    ("use_split_cross_attention", false, false, "--use-split-cross-attention");
    ("use_quad_cross_attention", false, false, "--use-quad-cross-attention");
    ("use_sage_attention", false, false, "--use-sage-attention");
    ("use_flash_attention", false, false, "--use-flash-attention");
    ("directml", false, false, "--directml");
    ("gpu_only", false, false, "--gpu-only");
    ("cpu_vae", false, false, "--cpu-vae");
    ("async_offload", false, false, "--async-offload");
    ("disable_mmap", false, false, "--disable-mmap");
    ("force_channels_last", false, false, "--force-channels-last") ].

(** The test [build_command] makes for one row of the table. *)
Definition flag_enabled (st : launcher) (f : string * bool * bool * string) : bool :=
  let '(key, dflt, inverted, _) := f in
  xorb inverted (truthy (get_config_value st key (VBool dflt))).

Definition flag_tokens (st : launcher) : list value :=
  flat_map (fun f => if flag_enabled st f then [VStr f.2] else []) flag_table.

(** The interpreter [build_command] picks. *)
Definition interpreter (e : env) (st : launcher) : value :=
  let python_exe := get_config_value st "python_executable" (VStr "") in
  if (truthy python_exe && isfile e python_exe)%bool then python_exe
  else VStr (sys_executable e).

(** The options that carry a value. *)
Definition value_options (st : launcher) : list value :=
  let reserve_vram := get_config_value st "reserve_vram" (VStr "") in
  let preview_method := get_config_value st "preview_method" (VStr "auto") in
  let preview_size := get_config_value st "preview_size" (VStr "") in
  (if truthy reserve_vram then [VStr "--reserve-vram"; reserve_vram] else [])
  ++ (if (truthy preview_method && py_ne preview_method (VStr "auto"))%bool
      then [VStr "--preview-method"; preview_method] else [])
  ++ (if truthy preview_size then [VStr "--preview-size"; preview_size] else []).

(** The tokens of [extra_args], or the [AttributeError] of [split]. *)
Definition extra_of (extra_args : value) : exn + list value :=
  if truthy extra_args then
    match extra_args with
    | VStr s => inr (VStr <$> PyStr.split s)
    | v => inl ("'" +:+ type_name v +:+ "' object has no attribute 'split'")
    end
  else inr [].

Definition extra_tokens (st : launcher) : exn + list value :=
  extra_of (get_config_value st "extra_args" (VStr "")).

(** A command line completed by the extra arguments. *)
Definition with_extra (extra : exn + list value) (cmd : list value) : exn + list value :=
  match extra with
  | inl ex => inl ex
  | inr l => inr (cmd ++ l)
  end.

(** The words of the command line that come from the configuration or the
    environment as they are, not from a fixed token. *)
Definition free_values (e : env) (st : launcher) : list value :=
  [ interpreter e st;
    get_config_value st "port" (VStr "8188");
    get_config_value st "listen" (VStr "0.0.0.0");
    get_config_value st "reserve_vram" (VStr "");
    get_config_value st "preview_method" (VStr "auto");
    get_config_value st "preview_size" (VStr "") ]
  ++ match extra_tokens st with inr l => l | inl _ => [] end.

(** Where the configuration sets [extra_args] to the token of [cpu_mode]. *)
Definition extra_cpu_launcher : launcher :=
  init_launcher (<["extra_args" := VStr "--cpu"]> default_config) [].

(** Where the configuration turns [use_pytorch_cross_attention] on. *)
Definition pytorch_attention_launcher : launcher :=
  init_launcher (<["use_pytorch_cross_attention" := VBool true]> default_config) [].

(** Where a custom interpreter is configured. *)
Definition custom_python_launcher : launcher :=
  init_launcher (<["python_executable" := VStr "/opt/venv/bin/python"]> default_config) [].

(** [demo_env] once the configured interpreter exists on disk. *)
Definition demo_env_with_file : env :=
  {| sys_executable := sys_executable demo_env;
     isfile := fun v => bool_decide (v = VStr "/opt/venv/bin/python");
     dt_now := dt_now demo_env;
     time_time := time_time demo_env;
     popen := popen demo_env;
     poll := poll demo_env;
     psutil_is_running := psutil_is_running demo_env;
     kill_tree := kill_tree demo_env;
     final_kill := final_kill demo_env |}.

(** The tokens [build_command] writes whatever the configuration says. *)
Definition fixed_tokens : list string :=
  ["-s"; "main.py"; "--windows-standalone-build"; "--port"; "--listen";
   "--reserve-vram"; "--preview-method"; "--preview-size"].

(** The keys of [default_config] whose default is a boolean. *)
Definition default_bool_keys : list string :=
  omap (fun kv => match kv.2 with VBool _ => Some kv.1 | _ => None end)
       (map_to_list default_config).

(** [demo_env] while the child is alive: [poll()] returns [None]. *)
Definition live_env : env :=
  {| sys_executable := sys_executable demo_env;
     isfile := isfile demo_env;
     dt_now := dt_now demo_env;
     time_time := time_time demo_env;
     popen := popen demo_env;
     poll := fun _ => None;
     psutil_is_running := fun _ => true;
     kill_tree := kill_tree demo_env;
     final_kill := final_kill demo_env |}.

(** The launcher of the default configuration after a first start. *)
Definition started_machine : machine :=
  step demo_env CallStart (init_machine default_config []).

(** Background activity while the child runs. *)
Definition quiet_schedule : list (env * event) :=
  [ (live_env, ReaderLine 0 "Model ready to serve
");
    (live_env, MonitorStep 0);
    (live_env, MonitorStep 0);
    (live_env, CallClearLogs) ].

(** The answer of a start that finds the process running. *)
Definition already_running : result :=
  mk_result false "Process already running" None.

(** Two launchers that differ at most in their log sink. *)
Definition only_logs_differ (st st' : launcher) : Prop :=
  process st' = process st /\ is_running st' = is_running st
  /\ config st' = config st /\ history st' = history st
  /\ restart_attempts st' = restart_attempts st
  /\ last_crash_time st' = last_crash_time st
  /\ start_time st' = start_time st /\ process_pid st' = process_pid st.

(** The pid [stop_fuxkcomfy] goes after: that of the handle, else the
    remembered one. *)
Definition stop_target (st : launcher) : Z :=
  match process st with
  | Some p => pid p
  | None => default 0 (process_pid st)
  end.


(* ===================================================================== *)
(** ** Crash and automatic restart *)
(* ===================================================================== *)

(** The default configuration with automatic restart switched on;
    [max_restart_attempts] keeps its default, 3. *)
Definition auto_restart_config : gmap string value :=
  <["auto_restart" := VBool true]> default_config.

(** One unexpected exit, in the order the monitor is written for:
    monitor [k] passes the loop test and sleeps; the child dies, reader [k]
    reaches the end of the stream and records the exit; monitor [k] wakes,
    sees the exit and decides; after its settle delay it calls start. *)
Definition crash_cycle (e : env) (k : nat) : list (env * event) :=
  [ (e, MonitorStep k); (e, ReaderEOF k); (e, MonitorStep k); (e, MonitorStep k) ].

(** [n] crashes in a row, each handled by the threads of the lifetime it
    ends. *)
Definition crash_schedule (e : env) (n : nat) : list (env * event) :=
  flat_map (crash_cycle e) (seq 0 n).

(** Automatic restart on, a single attempt allowed. *)
Definition single_restart_config : gmap string value :=
  <["max_restart_attempts" := VInt 1]> auto_restart_config.

(** A start, the child's exit recorded by the reader, and the monitor's
    decision to restart, up to its settle delay. *)
Definition crash_seen (e : env) : list (env * event) :=
  [ (e, CallStart); (e, MonitorStep 0); (e, ReaderEOF 0); (e, MonitorStep 0) ].

(** The entry the monitor logs when it stops restarting. *)
Definition gave_up (log : LogEntry) : bool :=
  PyStr.startswith "Max restart attempts" (message log).

(** The state between two crashes of the schedule: the process runs, the
    counter is 0, and of the [k+1] lifetimes so far only the last still has
    its threads. *)
Definition restarted (k : nat) (m : machine) : Prop :=
  is_running (self m) = true
  /\ (exists p, process (self m) = Some {| pid := p |})
  /\ restart_attempts (self m) = 0
  /\ config (self m) = auto_restart_config
  /\ monitors m = replicate k MonDone ++ [MonLoop]
  /\ readers m = replicate k RdDone ++ [RdLines]
  /\ length (spawned m) = S k
  /\ Forall (fun log => gave_up log = false) (logs (self m)).
(* ===================================================================== *)
(** ** Configuration, history and preset stores *)
(* ===================================================================== *)

(** [ConfigManager.load]; [file] is the JSON object found in
    [launcher_config.json], [None] when the file is missing or cannot be
    read.  [{**default_config, **config}]: the file wins on common keys. *)
Definition config_load (file : option (gmap string value)) : gmap string value :=
  match file with
  | Some config => config ∪ default_config
  | None => default_config
  end.

(** [history[-50:]] *)
Definition last_50 (h : list history_entry) : list history_entry :=
  py_slice_from (-50) h.

(** [ConfigManager.load_history]; [file] is the list found in
    [launcher_history.json], [None] when missing or unreadable. *)
Definition load_history (file : option (list history_entry)) : list history_entry :=
  match file with
  | Some h => last_50 h
  | None => []
  end.

(** What [ConfigManager.save_history] writes to [launcher_history.json]. *)
Definition save_history (h : list history_entry) : list history_entry :=
  last_50 h.

(** The answer of the preset routes. *)
Record preset_answer := {
  pa_success : bool;
  pa_message : option string
}.

(** Route [POST /api/presets]; [name] and [cfg] are [data.get('name')] and
    [data.get('config')] for a string name and an object config, [saved] is
    what [save_presets] returns. *)
Definition save_preset (saved : bool) (name : option string)
    (cfg : option (gmap string value)) (presets : gmap string (gmap string value))
    : preset_answer * gmap string (gmap string value) :=
  match name, cfg with
  | Some n, Some c =>
      if (negb (String.eqb n "") && negb (bool_decide (c = ∅)))%bool
      then ({| pa_success := saved; pa_message := None |}, <[n := c]> presets)
      else ({| pa_success := false; pa_message := Some "Invalid preset data" |}, presets)
  | _, _ => ({| pa_success := false; pa_message := Some "Invalid preset data" |}, presets)
  end.

(** Route [DELETE /api/presets/<name>] *)
Definition delete_preset (saved : bool) (name : string)
    (presets : gmap string (gmap string value))
    : preset_answer * gmap string (gmap string value) :=
  if (bool_decide (is_Some (presets !! name)) && negb (String.eqb name "default"))%bool
  then ({| pa_success := saved; pa_message := None |}, delete name presets)
  else ({| pa_success := false; pa_message := Some "Cannot delete default preset" |}, presets).

(** A request to one of the two preset routes. *)
Inductive preset_op :=
| PresetSave (saved : bool) (name : option string) (cfg : option (gmap string value))
| PresetDelete (saved : bool) (name : string).

Definition preset_step (presets : gmap string (gmap string value)) (op : preset_op)
    : gmap string (gmap string value) :=
  match op with
  | PresetSave saved name cfg => (save_preset saved name cfg presets).2
  | PresetDelete saved name => (delete_preset saved name presets).2
  end.

(* ===================================================================== *)
(** ** Uptime *)
(* ===================================================================== *)

(** [f"{n:02d}"] *)
Definition fmt_02d (n : Z) : string :=
  if n <? 0 then PyStr.of_Z n else PyStr.zfill 2 (Z.to_N n).

(** Lines 632-635 of [get_uptime], on [uptime_seconds]. *)
Definition format_uptime (uptime_seconds : Z) : string :=
  let hours := uptime_seconds / 3600 in
  let minutes := (uptime_seconds mod 3600) / 60 in
  let seconds := uptime_seconds mod 60 in
  fmt_02d hours +:+ ":" +:+ fmt_02d minutes +:+ ":" +:+ fmt_02d seconds.

(** [get_uptime]; [int(...)] cuts the difference of the two clock
    readings down to whole seconds.  The readings are whole microseconds,
    so the difference is exact where Python subtracts two floats. *)
Definition get_uptime (e : env) (st : launcher) : option string :=
  match start_time st with
  | None => None
  | Some t =>
      if t =? 0 then None
      else Some (format_uptime (Z.quot (time_time e - t) 1000000))
  end.

(* ===================================================================== *)
(** ** Invariants of the launcher *)
(* ===================================================================== *)

(** Flag, handle and remembered pid agree: a running flag comes with a
    handle, and no pid is remembered without one. *)
Definition consistent (st : launcher) : Prop :=
  (is_running st = true -> process st <> None)
  /\ (process st = None -> process_pid st = None).

(** The effects that start something: a spawn that worked, a thread. *)
Definition starts_something (eff : effect) : bool :=
  match eff with
  | EffPopen _ (inr _) => true
  | EffThread _ => true
  | _ => false
  end.

(** The fields of the launcher that describe the process lifetime. *)
Definition same_lifetime (st st' : launcher) : Prop :=
  process st' = process st /\ is_running st' = is_running st
  /\ process_pid st' = process_pid st /\ config st' = config st
  /\ restart_attempts st' = restart_attempts st
  /\ start_time st' = start_time st
  /\ last_crash_time st' = last_crash_time st.



(* ===================================================================== *)
(** * Properties *)
(* ===================================================================== *)

(** Membership in a list written out. *)
Ltac elem_here :=
  repeat first [ apply list_elem_of_here | apply list_elem_of_further ].

(** ** Strings *)

Example lower_ex : PyStr.lower "Warning: DEPRECATED [x]" = "warning: deprecated [x]".
Proof. reflexivity. Qed.
Example strip_ex : PyStr.strip "  a b
" = "a b".
Proof. reflexivity. Qed.
Example split_ex : PyStr.split "  --cpu   --cache-lru 8 " = ["--cpu"; "--cache-lru"; "8"].
Proof. reflexivity. Qed.
Example join_ex : PyStr.join " " ["a"; "b"; "c"] = "a b c".
Proof. reflexivity. Qed.
Example ofZ_ex : PyStr.of_Z (-9) = "-9" /\ PyStr.of_Z 0 = "0" /\ PyStr.zfill 2 7 = "07".
Proof. repeat split; reflexivity. Qed.
Example droplast_ex : PyStr.drop_last 3 "12:00:01.123456" = "12:00:01.123".
Proof. reflexivity. Qed.

Lemma append_nil_l s : "" +:+ s = s.
Proof. reflexivity. Qed.

Lemma append_cons c s t : String c s +:+ t = String c (s +:+ t).
Proof. reflexivity. Qed.

Lemma startswith_spec needle hay :
  PyStr.startswith needle hay = true <-> exists post, hay = needle +:+ post.
Proof.
  revert hay. induction needle as [|a n IH]; intros hay; simpl.
  - split; [intros _; by exists hay | done].
  - destruct hay as [|b h].
    + split; [done | intros [post H]; discriminate H].
    + destruct (decide (a = b)) as [->|Hne].
      * rewrite IH. split; intros [post H]; exists post; [by rewrite H | by inversion H].
      * split; [done | intros [post H]; inversion H; congruence].
Qed.

Lemma contains_spec needle hay :
  PyStr.contains needle hay = true <-> occurs_in needle hay.
Proof.
  unfold occurs_in. induction hay as [|c h IH]; simpl.
  - rewrite orb_false_r, startswith_spec. split.
    + intros [post H]. by exists "", post.
    + intros [[|a pre] [post H]]; [by exists post | discriminate H].
  - rewrite orb_true_iff, startswith_spec, IH. split.
    + intros [[post H] | (pre & post & H)].
      * by exists "", post.
      * exists (String c pre), post. simpl. by rewrite H.
    + intros [[|a pre] [post H]].
      * left. by exists post.
      * right. simpl in H. inversion H; subst. by exists pre, post.
Qed.

Lemma passesb_spec level_filter search log :
  passesb level_filter search log = true <-> passes level_filter search log.
Proof.
  unfold passesb, passes.
  rewrite andb_true_iff, !orb_true_iff, !String.eqb_eq, contains_spec. tauto.
Qed.

Lemma is_space_lower_char c : PyStr.is_space (PyStr.lower_char c) = PyStr.is_space c.
Proof. destruct c as [[] [] [] [] [] [] [] []]; reflexivity. Qed.

Lemma lower_app s t : PyStr.lower (s +:+ t) = PyStr.lower s +:+ PyStr.lower t.
Proof. induction s as [|c s IH]; simpl; [done | by rewrite IH]. Qed.

Lemma lower_lstrip s : PyStr.lower (PyStr.lstrip s) = PyStr.lstrip (PyStr.lower s).
Proof.
  induction s as [|c s IH]; simpl; [done|].
  rewrite is_space_lower_char. by destruct (PyStr.is_space c).
Qed.

Lemma lower_rstrip s : PyStr.lower (PyStr.rstrip s) = PyStr.rstrip (PyStr.lower s).
Proof.
  induction s as [|c s IH]; simpl; [done|].
  rewrite <- IH, is_space_lower_char.
  destruct (PyStr.rstrip s); simpl; [by destruct (PyStr.is_space c) | done].
Qed.

Lemma lower_strip s : PyStr.lower (PyStr.strip s) = PyStr.strip (PyStr.lower s).
Proof. unfold PyStr.strip. by rewrite lower_rstrip, lower_lstrip. Qed.

(** [rstrip] cuts a run of white space off the right end. *)
Lemma rstrip_decompose s :
  exists w, all_space w = true /\ s = PyStr.rstrip s +:+ w.
Proof.
  induction s as [|c s (w & Hw & Hs)]; simpl.
  - by exists "".
  - destruct (PyStr.rstrip s) as [|d r] eqn:Hr.
    + rewrite append_nil_l in Hs. subst w.
      destruct (PyStr.is_space c) eqn:Hc.
      * exists (String c s). cbn [all_space]. by rewrite Hc, Hw.
      * by exists s.
    + exists w. split; [done|]. by rewrite append_cons, <- Hs.
Qed.

Lemma startswith_app_space k x w :
  space_free k = true -> all_space w = true ->
  PyStr.startswith k (x +:+ w) = PyStr.startswith k x.
Proof.
  revert x. induction k as [|a k IH]; intros x Hk Hw; [done|].
  simpl in Hk. apply andb_true_iff in Hk as [Ha Hk].
  destruct x as [|b x].
  - rewrite append_nil_l. destruct w as [|c w]; [done|].
    simpl in Hw. apply andb_true_iff in Hw as [Hc _]. simpl.
    destruct (decide (a = c)) as [->|]; [|done]. by rewrite Hc in Ha.
  - rewrite append_cons. simpl. destruct (decide (a = b)); [by apply IH | done].
Qed.

Lemma contains_all_space k w :
  k <> "" -> space_free k = true -> all_space w = true -> PyStr.contains k w = false.
Proof.
  intros Hne Hk. destruct k as [|a k]; [done|]. simpl in Hk.
  apply andb_true_iff in Hk as [Ha _].
  induction w as [|c w IH]; intros Hw; simpl; [done|].
  simpl in Hw. apply andb_true_iff in Hw as [Hc Hw].
  rewrite (IH Hw), orb_false_r.
  destruct (decide (a = c)) as [->|]; [|done]. by rewrite Hc in Ha.
Qed.

Lemma contains_app_space k x w :
  k <> "" -> space_free k = true -> all_space w = true ->
  PyStr.contains k (x +:+ w) = PyStr.contains k x.
Proof.
  intros Hne Hk Hw. induction x as [|b x IH].
  - rewrite append_nil_l, (contains_all_space k w) by done. by destruct k.
  - rewrite append_cons. cbn [PyStr.contains]. rewrite IH, <- append_cons.
    by rewrite startswith_app_space.
Qed.

Lemma contains_lstrip k s :
  k <> "" -> space_free k = true ->
  PyStr.contains k (PyStr.lstrip s) = PyStr.contains k s.
Proof.
  intros Hne Hk. destruct k as [|a k]; [done|]. simpl in Hk.
  apply andb_true_iff in Hk as [Ha _].
  induction s as [|c s IH]; [done|].
  cbn [PyStr.lstrip]. destruct (PyStr.is_space c) eqn:Hc; [|done].
  rewrite IH. cbn [PyStr.contains PyStr.startswith].
  destruct (decide (a = c)) as [->|]; [|done]. by rewrite Hc in Ha.
Qed.

Lemma contains_strip k s :
  k <> "" -> space_free k = true ->
  PyStr.contains k (PyStr.strip s) = PyStr.contains k s.
Proof.
  intros Hne Hk. unfold PyStr.strip.
  destruct (rstrip_decompose (PyStr.lstrip s)) as (w & Hw & Hs).
  rewrite <- (contains_lstrip k s) by done.
  rewrite Hs at 2. by rewrite contains_app_space.
Qed.

(** The nested [if]/[elif] of the reader is the rule table of the
    specification. *)
Lemma classify_is_first_match line : classify line = classify_spec line.
Proof.
  unfold classify, classify_spec, severity_rules. cbn [first_match existsb].
  rewrite !orb_false_r, !orb_assoc. reflexivity.
Qed.

(** Stripping a line does not change its severity: no keyword holds
    white space. *)
Lemma classify_strip line : classify (PyStr.strip line) = classify line.
Proof.
  unfold classify. cbv zeta. rewrite lower_strip.
  by rewrite !contains_strip.
Qed.

(** ** Output classification *)

Lemma existsb_contains keywords line_lower :
  existsb (fun k => PyStr.contains k line_lower) keywords = true
  <-> exists k, k ∈ keywords /\ occurs_in k line_lower.
Proof.
  rewrite existsb_exists. split; intros (k & Hin & Hk); exists k.
  - by rewrite list_elem_of_In, <- contains_spec.
  - by rewrite <- list_elem_of_In, contains_spec.
Qed.

(** First match wins, read off the rule table. *)
Lemma classify_spec_cases line :
  let E := has_keyword error_keywords line in
  let W := has_keyword warning_keywords line in
  let S := has_keyword success_keywords line in
  (E -> classify_spec line = "error")
  /\ (~ E -> W -> classify_spec line = "warning")
  /\ (~ E -> ~ W -> S -> classify_spec line = "success")
  /\ (~ E -> ~ W -> ~ S -> classify_spec line = "info").
Proof.
  unfold has_keyword, classify_spec, severity_rules. cbn [first_match].
  fold error_keywords warning_keywords success_keywords.
  pose proof (existsb_contains error_keywords (PyStr.lower line)) as HE.
  pose proof (existsb_contains warning_keywords (PyStr.lower line)) as HW.
  pose proof (existsb_contains success_keywords (PyStr.lower line)) as HS.
  destruct (existsb _ error_keywords);
    destruct (existsb _ warning_keywords);
    destruct (existsb _ success_keywords);
    repeat split; intros; try done; exfalso; intuition congruence.
Qed.

Lemma read_output_line_logs e line st :
  line <> "" ->
  logs (read_output_line e line st)
  = Deque.append LOGS_MAXLEN (logs st)
      {| timestamp := dt_now e; message := PyStr.strip line; level := classify_spec line |}.
Proof.
  intros Hne. unfold read_output_line.
  destruct (String.eqb line "") eqn:Heq; [by apply String.eqb_eq in Heq|].
  cbn [negb log_message logs set_logs]. by rewrite classify_strip, classify_is_first_match.
Qed.

(** C5: for every non-empty output line the entry the reader logs has the
    severity given by case-insensitive keyword containment, first match
    winning in the order error, warning, success and [info] otherwise;
    the four example lines classify as warning, success, error and info. *)
Theorem C5_severity_first_keyword_match (e : env) (line : string) (st : launcher) :
  line <> "" ->
  exists entry,
    logs (read_output_line e line st) = Deque.append LOGS_MAXLEN (logs st) entry
    /\ message entry = PyStr.strip line
    /\ level entry = classify_spec line
    /\ (has_keyword error_keywords line -> level entry = "error")
    /\ (~ has_keyword error_keywords line -> has_keyword warning_keywords line ->
        level entry = "warning")
    /\ (~ has_keyword error_keywords line -> ~ has_keyword warning_keywords line ->
        has_keyword success_keywords line -> level entry = "success")
    /\ (~ has_keyword error_keywords line -> ~ has_keyword warning_keywords line ->
        ~ has_keyword success_keywords line -> level entry = "info")
    /\ classify "Warning: deprecated" = "warning"
    /\ classify "Model ready to serve" = "success"
    /\ (occurs_in "Exception" line -> level entry = "error")
    /\ classify "Loading checkpoint 3 of 7" = "info".
Proof.
  intros Hne.
  exists {| timestamp := dt_now e; message := PyStr.strip line; level := classify_spec line |}.
  destruct (classify_spec_cases line) as (HE & HW & HS & HI).
  cbn [message level].
  split; [by apply read_output_line_logs|].
  repeat split; try done.
  intros (pre & post & ->). apply HE.
  exists "exception". split; [unfold error_keywords; elem_here|].
  exists (PyStr.lower pre), (PyStr.lower post). by rewrite !lower_app.
Qed.

Lemma C5_witness :
  "Traceback (most recent call last): Exception
" <> ""
  /\ exists entry,
      logs (read_output_line demo_env "Traceback (most recent call last): Exception
" (init_launcher default_config []))
      = Deque.append LOGS_MAXLEN [] entry
      /\ message entry = "Traceback (most recent call last): Exception"
      /\ level entry = "error".
Proof.
  split; [done|].
  destruct (C5_severity_first_keyword_match demo_env
              "Traceback (most recent call last): Exception
" (init_launcher default_config []))
    as (entry & Hlogs & Hmsg & Hlvl & _); [done|].
  exists entry. split; [exact Hlogs|]. split; [exact Hmsg|].
  rewrite Hlvl. reflexivity.
Defined.

(** ** Log sink *)

Lemma deque_append_fits {A} (n : nat) (d : list A) (x : A) :
  (length d < n)%nat -> Deque.append n d x = d ++ [x].
Proof.
  intros Hlt. unfold Deque.append.
  destruct (Nat.eqb_spec n 0) as [->|_]; [lia|].
  rewrite length_app. cbn [length].
  destruct (Nat.ltb_spec n (length d + 1)); [lia | done].
Qed.

Lemma deque_append_full {A} (n : nat) (d : list A) (x : A) :
  n <> 0%nat -> length d = n -> Deque.append n d x = tail d ++ [x].
Proof.
  intros Hn Hlen. unfold Deque.append.
  destruct (Nat.eqb_spec n 0) as [|_]; [done|].
  rewrite length_app. cbn [length].
  destruct (Nat.ltb_spec n (length d + 1)); [|lia].
  destruct d; [simpl in Hlen; lia | done].
Qed.

Lemma deque_append_bound {A} (n : nat) (d : list A) (x : A) :
  (length d <= n)%nat -> (length (Deque.append n d x) <= n)%nat.
Proof.
  intros Hle. unfold Deque.append.
  destruct (Nat.eqb_spec n 0) as [->|Hn]; [done|].
  rewrite length_app. cbn [length].
  destruct (Nat.ltb_spec n (length d + 1)).
  - destruct d; simpl in *; [lia|]. rewrite length_app. simpl. lia.
  - rewrite length_app. simpl. lia.
Qed.

Lemma log_message_bound e msg lvl st :
  (length (logs st) <= LOGS_MAXLEN)%nat ->
  (length (logs (log_message e msg lvl st)) <= LOGS_MAXLEN)%nat.
Proof. intros H. by apply deque_append_bound. Qed.

Lemma clear_logs_bound e st : (length (logs (clear_logs e st)) <= LOGS_MAXLEN)%nat.
Proof. unfold clear_logs. apply log_message_bound. cbn. unfold LOGS_MAXLEN. lia. Qed.

Lemma sink_run_bound ops st :
  (length (logs st) <= LOGS_MAXLEN)%nat ->
  (length (logs (sink_run ops st)) <= LOGS_MAXLEN)%nat.
Proof.
  revert st. induction ops as [|op ops IH]; intros st Hst; [done|].
  apply IH. destruct op; [by apply log_message_bound | apply clear_logs_bound].
Qed.

Lemma tail_drop {A} (k : nat) (l : list A) : tail (drop k l) = drop (S k) l.
Proof.
  revert l. induction k as [|k IH]; intros [|x l]; cbn; try done.
Qed.

(** Appending to the [n] most recent elements of a list gives the [n] most
    recent elements of the list extended. *)
Lemma deque_append_most_recent {A} (n : nat) (l : list A) (x : A) :
  n <> 0%nat -> Deque.append n (most_recent n l) x = most_recent n (l ++ [x]).
Proof.
  intros Hn. unfold most_recent. rewrite length_app. cbn [length].
  destruct (decide (length l < n)%nat) as [Hlt|Hge].
  - replace (length l - n)%nat with 0%nat by lia.
    replace (length l + 1 - n)%nat with 0%nat by lia.
    cbn [drop]. by apply deque_append_fits.
  - rewrite deque_append_full; [|done|rewrite length_drop; lia].
    rewrite tail_drop.
    replace (length l + 1 - n)%nat with (S (length l - n)) by lia.
    by rewrite drop_app_le by lia.
Qed.

(** The sink holds the 2000 most recent of the entries that arrived since
    it was last emptied, oldest first. *)
Lemma sink_run_arrivals (ops : list sink_op) (st : launcher) (acc : list LogEntry) :
  logs st = most_recent LOGS_MAXLEN acc ->
  logs (sink_run ops st) = most_recent LOGS_MAXLEN (foldl arrivals_step acc ops).
Proof.
  unfold sink_run. revert st acc.
  induction ops as [|op ops IH]; intros st acc Hst; cbn [foldl]; [done|].
  apply IH. destruct op as [e msg lvl|e]; cbn [sink_step arrivals_step].
  - unfold log_message. cbn [logs set_logs]. rewrite Hst.
    by apply deque_append_most_recent.
  - unfold clear_logs, log_message. cbn [logs set_logs]. done.
Qed.

(** C6: after any sequence of appends and clears the sink holds at most
    2000 entries, and they are the most recent 2000 of the entries that
    arrived since the sink was last emptied, in their order of arrival.
    An append below capacity puts the new entry last and drops nothing; an
    append at capacity drops exactly the first entry, the oldest, keeps
    the others in their order and puts the new entry last. *)
Theorem C6_log_sink_bounded_fifo (ops : list sink_op)
    (cfg : gmap string value) (hist : list history_entry) :
  let st := sink_run ops (init_launcher cfg hist) in
  (length (logs st) <= 2000)%nat
  /\ logs st = most_recent 2000 (arrivals ops)
  /\ forall e msg lvl,
       let entry := {| timestamp := dt_now e; message := msg; level := lvl |} in
       ((length (logs st) < 2000)%nat ->
          logs (log_message e msg lvl st) = logs st ++ [entry])
       /\ (length (logs st) = 2000%nat ->
             exists oldest survivors,
               logs st = oldest :: survivors
               /\ logs (log_message e msg lvl st) = survivors ++ [entry]).
Proof.
  intros st. split_and!.
  - apply (sink_run_bound ops). cbn. lia.
  - by apply (sink_run_arrivals ops (init_launcher cfg hist) []).
  - intros e msg lvl entry. split.
    + intros Hroom. unfold log_message. cbn [logs set_logs].
      by apply deque_append_fits.
    + intros Hfull.
      destruct (logs st) as [|oldest survivors] eqn:Hl; [discriminate Hfull|].
      exists oldest, survivors. split; [done|].
      unfold log_message. cbn [logs set_logs]. rewrite Hl.
      by rewrite deque_append_full.
Qed.

(** With entries that differ: three numbered entries in a fresh sink stay
    in their order and a fourth goes last; after 2000 numbered entries the
    sink is full, its first entry is number 0, the first to arrive, and one
    more append drops that entry and no other. *)
Lemma C6_witness :
  let few := sink_run (numbered_ops 3) (init_launcher default_config []) in
  let full := sink_run (numbered_ops 2000) (init_launcher default_config []) in
  message <$> logs (log_message demo_env "one more" "info" few)
    = ["0"; "1"; "2"; "one more"]
  /\ length (logs full) = 2000%nat
  /\ exists oldest survivors,
       logs full = oldest :: survivors
       /\ message oldest = "0"
       /\ message <$> take 2 survivors = ["1"; "2"]
       /\ logs (log_message demo_env "one more" "info" full)
          = survivors ++ [demo_entry "one more" "info"].
Proof.
  intros few full. split_and!.
  - destruct (C6_log_sink_bounded_fifo (numbered_ops 3) default_config [])
      as (_ & _ & Hstep).
    destruct (Hstep demo_env "one more" "info") as [Happ _].
    fold few in Happ. rewrite Happ by (vm_compute; lia).
    vm_compute. reflexivity.
  - vm_compute. reflexivity.
  - destruct (C6_log_sink_bounded_fifo (numbered_ops 2000) default_config [])
      as (_ & _ & Hstep).
    destruct (Hstep demo_env "one more" "info") as [_ Hevict].
    fold full in Hevict.
    destruct Hevict as (oldest & survivors & Hl & Hnew); [vm_compute; reflexivity|].
    exists oldest, survivors.
    assert (Hhead : message <$> take 3 (logs full) = ["0"; "1"; "2"])
      by (vm_compute; reflexivity).
    rewrite Hl in Hhead. cbn [take] in Hhead. rewrite fmap_cons in Hhead.
    injection Hhead as H0 H12.
    split_and!; [exact Hl|exact H0|exact H12|exact Hnew].
Defined.

(** ** Log queries *)

Lemma get_logs_loop_filter level_filter search ls acc :
  get_logs_loop level_filter search ls acc
  = acc ++ (to_dict <$> List.filter (passesb level_filter search) ls).
Proof.
  revert acc. induction ls as [|log ls IH]; intros acc; cbn [get_logs_loop List.filter].
  - by rewrite app_nil_r.
  - unfold passesb at 1.
    destruct (String.eqb level_filter "all"), (String.eqb (level log) level_filter),
      (String.eqb search ""),
      (PyStr.contains (PyStr.lower search) (PyStr.lower (message log)));
      cbn [negb andb orb]; rewrite IH; try done;
      by rewrite fmap_cons, <- app_assoc.
Qed.

Lemma py_slice_last {A} (limit : Z) (l : list A) :
  1 <= limit -> py_slice_from (- limit) l = most_recent (Z.to_nat limit) l.
Proof.
  intros Hpos. unfold py_slice_from, most_recent.
  destruct (Z.ltb_spec (- limit) 0); [|lia]. f_equal. lia.
Qed.

Lemma py_slice_zero {A} (l : list A) : py_slice_from (- 0) l = l.
Proof. unfold py_slice_from. cbn. by rewrite Z.min_l by lia. Qed.

Lemma py_slice_negative {A} (limit : Z) (l : list A) :
  limit < 0 -> py_slice_from (- limit) l = drop (Z.to_nat (- limit)) l.
Proof.
  intros Hneg. unfold py_slice_from.
  destruct (Z.ltb_spec (- limit) 0); [lia|].
  destruct (Z.min_spec (- limit) (Z.of_nat (length l))) as [[_ ->]|[Hle ->]]; [done|].
  rewrite Nat2Z.id, !drop_ge; [done | lia | lia].
Qed.

Lemma get_logs_filter st level_filter search limit :
  get_logs st level_filter search limit
  = py_slice_from (- limit) (to_dict <$> List.filter (passesb level_filter search) (logs st)).
Proof. unfold get_logs. by rewrite get_logs_loop_filter. Qed.

(** C7, amended: for a limit of at least 1, [get_logs] returns the entries
    that pass both filters, cut down to the [limit] most recent and in
    chronological order. *)
Theorem C7_get_logs_positive_limit (st : launcher) (level_filter search : string) (limit : Z) :
  1 <= limit ->
  let matching := List.filter (passesb level_filter search) (logs st) in
  (forall log, log ∈ matching <-> log ∈ logs st /\ passes level_filter search log)
  /\ get_logs st level_filter search limit
     = query_spec (logs st) level_filter search (Z.to_nat limit)
  /\ exists older kept,
       matching = older ++ kept
       /\ get_logs st level_filter search limit = to_dict <$> kept
       /\ length kept = Nat.min (Z.to_nat limit) (length matching).
Proof.
  intros Hpos matching. split; [|split].
  - intros log. unfold matching.
    by rewrite !list_elem_of_In, filter_In, passesb_spec.
  - rewrite get_logs_filter, py_slice_last by done.
    unfold query_spec, most_recent. by rewrite fmap_drop, length_fmap.
  - exists (take (length matching - Z.to_nat limit) matching),
           (drop (length matching - Z.to_nat limit) matching).
    split; [by rewrite take_drop|]. split.
    + rewrite get_logs_filter, py_slice_last by done.
      unfold most_recent. by rewrite fmap_drop, length_fmap.
    + rewrite length_drop. lia.
Qed.

Lemma C7_witness :
  1 <= 1
  /\ get_logs three_logs "error" "" 1
     = [to_dict (demo_entry "load failed" "error")].
Proof.
  split; [lia|].
  rewrite (proj1 (proj2 (C7_get_logs_positive_limit three_logs "error" "" 1 ltac:(lia)))).
  vm_compute; reflexivity.
Defined.

(** C7 as stated fails for a limit of 0: two entries come back where at
    most 0 are allowed. *)
Lemma C7_counterexample_limit_zero :
  get_logs three_logs "error" "" 0
  = [to_dict (demo_entry "CUDA error" "error"); to_dict (demo_entry "load failed" "error")]
  /\ ~ (Z.of_nat (length (get_logs three_logs "error" "" 0)) <= 0)
  /\ get_logs three_logs "error" "" 0 <> query_spec (logs three_logs) "error" "" 0.
Proof. vm_compute. repeat split; [intros H; by apply H | discriminate]. Qed.

(** A negative limit drops that many of the oldest matches instead. *)
Lemma get_logs_negative_limit st level_filter search limit :
  limit < 0 ->
  get_logs st level_filter search limit
  = drop (Z.to_nat (- limit)) (to_dict <$> List.filter (passesb level_filter search) (logs st)).
Proof. intros H. by rewrite get_logs_filter, py_slice_negative. Qed.

(** C10: with limit 0, [get_logs] returns every entry that passes the
    filters, oldest first, not the empty list. *)
Theorem C10_get_logs_limit_zero_returns_all (st : launcher) (level_filter search : string) :
  get_logs st level_filter search 0
  = to_dict <$> List.filter (passesb level_filter search) (logs st).
Proof. by rewrite get_logs_filter, py_slice_zero. Qed.

(** ** Command builder: what it does to the launcher *)

Lemma build_command_state e st :
  (build_command e st).2 = log_message e (python_message e st) "info" st.
Proof.
  unfold build_command, python_message. cbv zeta.
  destruct (truthy (get_config_value st "python_executable" (VStr ""))
            && isfile e (get_config_value st "python_executable" (VStr "")))%bool;
    cbv beta iota;
    destruct (get_config_value st "extra_args" (VStr "")) as [| [] | n | s];
    cbn [truthy]; try reflexivity;
    match goal with |- context [negb ?b] => destruct b end; reflexivity.
Qed.

Lemma append_if_app cond tok cmd :
  append_if cond tok cmd = cmd ++ (if cond then [VStr tok] else []).
Proof. destruct cond; [done | by rewrite app_nil_r]. Qed.

Lemma extend_if_app cond items cmd :
  extend_if cond items cmd = cmd ++ (if cond then items else []).
Proof. destruct cond; [done | by rewrite app_nil_r]. Qed.

Lemma foldl_append_if st table base :
  foldl (fun cmd f => append_if (flag_enabled st f) f.2 cmd) base table
  = base ++ flat_map (fun f => if flag_enabled st f then [VStr f.2] else []) table.
Proof.
  revert base. induction table as [|f table IH]; intros base; cbn [foldl flat_map].
  - by rewrite app_nil_r.
  - by rewrite IH, append_if_app, <- app_assoc.
Qed.

Lemma build_tail (args : value) (cmd : list value) (st' : launcher) :
  (if truthy args
   then match args with
        | VStr s => (inr (cmd ++ (VStr <$> PyStr.split s)), st')
        | v => (inl ("'" +:+ type_name v +:+ "' object has no attribute 'split'"), st')
        end
   else (inr cmd, st')).1
  = with_extra (extra_of args) cmd.
Proof.
  unfold with_extra, extra_of.
  destruct args as [| [] | n | s]; cbn [truthy];
    try match goal with |- context [negb ?x] => destruct x end;
    cbn [negb fst]; by rewrite ?app_nil_r.
Qed.

(** [build_command] is: interpreter and script, the fixed platform flag,
    port and listen address, the enabled rows of [flag_table] in table
    order, the value options, the extra arguments. *)
Lemma build_command_argv e st :
  (build_command e st).1
  = with_extra (extra_tokens st)
      ([interpreter e st; VStr "-s"; VStr "main.py";
        VStr "--windows-standalone-build";
        VStr "--port"; get_config_value st "port" (VStr "8188");
        VStr "--listen"; get_config_value st "listen" (VStr "0.0.0.0")]
       ++ flag_tokens st ++ value_options st).
Proof.
  unfold build_command, interpreter, extra_tokens. cbv zeta.
  destruct (truthy (get_config_value st "python_executable" (VStr ""))
            && isfile e (get_config_value st "python_executable" (VStr "")))%bool;
    cbv beta iota;
    rewrite build_tail; f_equal;
    rewrite !extend_if_app;
    unfold value_options, flag_tokens; cbv zeta;
    rewrite !app_assoc; do 3 f_equal;
    rewrite <- foldl_append_if; reflexivity.
Qed.

(** ** Command builder: flags and tokens *)

Ltac is_fixed_token :=
  left; eexists; split; [|reflexivity]; unfold fixed_tokens; elem_here.

Ltac is_free_value :=
  unfold free_values; apply elem_of_app; left; elem_here.

Lemma flag_tokens_elem st tok :
  VStr tok ∈ flag_tokens st
  <-> exists f, f ∈ flag_table /\ f.2 = tok /\ flag_enabled st f = true.
Proof.
  unfold flag_tokens. rewrite list_elem_of_In, in_flat_map. split.
  - intros (f & Hf & Hin). exists f. rewrite list_elem_of_In. split; [done|].
    destruct (flag_enabled st f); [|by destruct Hin].
    destruct Hin as [[= ->]|[]]. done.
  - intros (f & Hf & <- & Hen). exists f. rewrite <- list_elem_of_In. split; [done|].
    rewrite Hen. by left.
Qed.

Lemma flag_table_tokens_distinct :
  Forall (fun f => Forall (fun f' => f.2 = f'.2 -> f = f') flag_table) flag_table.
Proof. apply (bool_decide_unpack _). by vm_compute. Qed.

Lemma flag_table_token_inj f f' :
  f ∈ flag_table -> f' ∈ flag_table -> f.2 = f'.2 -> f = f'.
Proof.
  intros Hf Hf'. pose proof flag_table_tokens_distinct as H.
  rewrite Forall_forall in H. specialize (H f Hf).
  rewrite Forall_forall in H. by apply H.
Qed.

Lemma flag_table_not_fixed :
  Forall (fun f => f.2 ∉ fixed_tokens) flag_table.
Proof. apply (bool_decide_unpack _). by vm_compute. Qed.

(** A word of the value options is a fixed token or a free value. *)
Lemma value_options_elem e st v :
  v ∈ value_options st ->
  (exists t, t ∈ fixed_tokens /\ v = VStr t) \/ v ∈ free_values e st.
Proof.
  unfold value_options. cbv zeta. rewrite !elem_of_app.
  intros [H|[H|H]];
    match type of H with _ ∈ (if ?c then _ else _) => destruct c end;
    try (by apply elem_of_nil in H);
    apply elem_of_cons in H as [->|H];
    try (by is_fixed_token);
    apply list_elem_of_singleton in H as ->; right; by is_free_value.
Qed.

(** Every word of the command line is a fixed token, a free value, or the
    token of an enabled row of the table. *)
Lemma build_command_words e st argv v :
  (build_command e st).1 = inr argv ->
  v ∈ argv ->
  (exists t, t ∈ fixed_tokens /\ v = VStr t)
  \/ v ∈ free_values e st
  \/ v ∈ flag_tokens st.
Proof.
  rewrite build_command_argv. unfold with_extra.
  destruct (extra_tokens st) as [ex|extra] eqn:Hextra; [done|].
  intros [= <-]. rewrite !elem_of_cons, !elem_of_app.
  intros [->|[->|[->|[->|[->|[->|[->|[->|[[H|H]|H]]]]]]]]];
    try (by is_fixed_token);
    try (right; left; by is_free_value).
  - by right; right.
  - destruct (value_options_elem e st v H) as [?|?]; [by left | by right; left].
  - right; left. unfold free_values. rewrite Hextra. apply elem_of_app. by right.
Qed.

(** C3, amended: for each of the 28 rows of [flag_table] (which has no row
    for [use_pytorch_cross_attention]), a true option puts its token on the
    command line, and the token is there only if the option is true unless
    the same word comes in as a free value (interpreter, port, listen,
    reserve_vram, preview_method, preview_size or a word of extra_args);
    for the negated row [gpu_opt] read "false" for "true". *)
Theorem C3_flag_token_iff_option (e : env) (st : launcher) (argv : list value)
    (key : string) (dflt inverted : bool) (tok : string) :
  (build_command e st).1 = inr argv ->
  (key, dflt, inverted, tok) ∈ flag_table ->
  let enabled := xorb inverted (truthy (get_config_value st key (VBool dflt))) in
  (enabled = true -> VStr tok ∈ argv)
  /\ (VStr tok ∉ free_values e st -> VStr tok ∈ argv -> enabled = true).
Proof.
  intros Hargv Hrow enabled. split.
  - intros Hen. rewrite build_command_argv in Hargv. unfold with_extra in Hargv.
    destruct (extra_tokens st) as [ex|extra]; [done|].
    injection Hargv as <-. rewrite !elem_of_cons, !elem_of_app.
    do 8 right. left; left.
    apply flag_tokens_elem. by exists (key, dflt, inverted, tok).
  - intros Hfree Hin.
    destruct (build_command_words e st argv _ Hargv Hin) as [(t & Ht & [= ->])|[?|Hflag]].
    + pose proof flag_table_not_fixed as Hnf. rewrite Forall_forall in Hnf.
      by destruct (Hnf _ Hrow).
    + done.
    + apply flag_tokens_elem in Hflag as (f & Hf & Htok & Hen).
      by rewrite (flag_table_token_inj f (key, dflt, inverted, tok) Hf Hrow Htok) in Hen.
Qed.

Lemma C3_witness :
  let st := init_launcher (<["lowvram" := VBool true]> default_config) [] in
  exists argv,
    (build_command demo_env st).1 = inr argv
    /\ ("lowvram", false, false, "--lowvram") ∈ flag_table
    /\ (VStr "--lowvram" ∉ free_values demo_env st)
    /\ VStr "--lowvram" ∈ argv
    /\ truthy (get_config_value st "lowvram" (VBool false)) = true.
Proof.
  intros st.
  assert (Hrow : ("lowvram", false, false, "--lowvram") ∈ flag_table).
  { apply (bool_decide_unpack _). by vm_compute. }
  assert (Hen : truthy (get_config_value st "lowvram" (VBool false)) = true).
  { by vm_compute. }
  eexists. split; [by vm_compute|]. split; [exact Hrow|].
  split; [apply (bool_decide_unpack _); by vm_compute|].
  split; [|exact Hen].
  exact (proj1 (C3_flag_token_iff_option demo_env st _ "lowvram" false false "--lowvram"
                  eq_refl Hrow) Hen).
Defined.

(** C3 as stated fails: with [extra_args] set to ["--cpu"] the token of
    [cpu_mode] is on the command line although the option is false. *)
Lemma C3_counterexample_extra_args :
  exists argv,
    (build_command demo_env extra_cpu_launcher).1 = inr argv
    /\ VStr "--cpu" ∈ argv
    /\ get_config_value extra_cpu_launcher "cpu_mode" (VBool false) = VBool false.
Proof.
  eexists. split; [by vm_compute|]. split; [|by vm_compute].
  apply (bool_decide_unpack _). by vm_compute.
Qed.

(** The option [use_pytorch_cross_attention] of the default configuration
    has no row: turning it on changes nothing in the command line. *)
Lemma use_pytorch_cross_attention_ignored :
  "use_pytorch_cross_attention" ∈ default_bool_keys
  /\ truthy (get_config_value pytorch_attention_launcher
               "use_pytorch_cross_attention" (VBool false)) = true
  /\ (build_command demo_env pytorch_attention_launcher).1
     = (build_command demo_env (init_launcher default_config [])).1
  /\ exists argv,
       (build_command demo_env pytorch_attention_launcher).1 = inr argv
       /\ VStr "--use-pytorch-cross-attention" ∉ argv.
Proof.
  split; [apply (bool_decide_unpack _); by vm_compute|].
  split; [by vm_compute|]. split; [by vm_compute|].
  eexists. split; [by vm_compute|].
  apply (bool_decide_unpack _). by vm_compute.
Qed.

(** The boolean options of the default configuration are the keys of the
    table, [use_pytorch_cross_attention] and [auto_restart]. *)
Lemma default_bool_keys_covered :
  Forall (fun key => key ∈ (fun f => f.1.1.1) <$> flag_table
                     \/ key = "use_pytorch_cross_attention" \/ key = "auto_restart")
         default_bool_keys
  /\ Forall (fun f => f.1.1.1 ∈ default_bool_keys) flag_table.
Proof. split; apply (bool_decide_unpack _); by vm_compute. Qed.

(** ** Command builder: state and determinism *)

Lemma get_config_value_ext st st' key dflt :
  config st' = config st -> get_config_value st' key dflt = get_config_value st key dflt.
Proof. unfold get_config_value. by intros ->. Qed.

Lemma flag_tokens_ext st st' : config st' = config st -> flag_tokens st' = flag_tokens st.
Proof.
  intros H. unfold flag_tokens. apply flat_map_ext. intros [[[key dflt] inverted] tok].
  unfold flag_enabled. by rewrite (get_config_value_ext st st').
Qed.

Lemma value_options_ext st st' : config st' = config st -> value_options st' = value_options st.
Proof. intros H. unfold value_options. by rewrite !(get_config_value_ext st st'). Qed.

Lemma log_message_frame e msg lvl st :
  let st' := log_message e msg lvl st in
  process st' = process st /\ is_running st' = is_running st
  /\ config st' = config st /\ history st' = history st
  /\ restart_attempts st' = restart_attempts st
  /\ last_crash_time st' = last_crash_time st
  /\ start_time st' = start_time st /\ process_pid st' = process_pid st.
Proof. by repeat split. Qed.

(** C9, amended: [build_command] appends one [info] entry to the log sink
    (the interpreter it uses) and changes nothing else in the launcher;
    its result is a function of the configuration, of [sys.executable] and
    of the [os.path.isfile] answer for the configured interpreter, so two
    calls that agree on these return the same argument vector, flags in the
    same order. *)
Theorem C9_build_command_logs_once_and_is_determined (e : env) (st : launcher) :
  let st1 := (build_command e st).2 in
  let python_exe := get_config_value st "python_executable" (VStr "") in
  logs st1
  = Deque.append LOGS_MAXLEN (logs st)
      {| timestamp := dt_now e; message := python_message e st; level := "info" |}
  /\ (process st1 = process st /\ is_running st1 = is_running st
      /\ config st1 = config st /\ history st1 = history st
      /\ restart_attempts st1 = restart_attempts st
      /\ last_crash_time st1 = last_crash_time st
      /\ start_time st1 = start_time st /\ process_pid st1 = process_pid st)
  /\ forall e' st',
       config st' = config st ->
       sys_executable e' = sys_executable e ->
       isfile e' python_exe = isfile e python_exe ->
       (build_command e' st').1 = (build_command e st).1.
Proof.
  intros st1 python_exe. subst st1. rewrite build_command_state.
  split; [done|]. split; [apply log_message_frame|].
  intros e' st' Hcfg Hexe Hfile. rewrite !build_command_argv.
  unfold extra_tokens, interpreter.
  rewrite (flag_tokens_ext st st'), (value_options_ext st st') by done.
  rewrite !(get_config_value_ext st st') by done.
  fold python_exe. by rewrite Hexe, Hfile.
Qed.

Lemma C9_witness :
  let st := init_launcher default_config [] in
  let st' := (build_command demo_env custom_python_launcher).2 in
  config st' = config custom_python_launcher
  /\ sys_executable demo_env = sys_executable demo_env
  /\ isfile demo_env (VStr "/opt/venv/bin/python") = isfile demo_env (VStr "/opt/venv/bin/python")
  /\ (build_command demo_env st').1 = (build_command demo_env custom_python_launcher).1.
Proof.
  intros st st'.
  assert (Hcfg : config st' = config custom_python_launcher) by apply log_message_frame.
  split; [exact Hcfg|]. split; [reflexivity|]. split; [reflexivity|].
  exact (proj2 (proj2 (C9_build_command_logs_once_and_is_determined
                         demo_env custom_python_launcher))
           demo_env st' Hcfg eq_refl eq_refl).
Defined.

(** C9 as stated fails: a call adds an entry to the log sink, and with
    the same configuration the result changes with what [os.path.isfile]
    answers. *)
Lemma C9_counterexample_log_and_filesystem :
  logs custom_python_launcher = []
  /\ logs (build_command demo_env custom_python_launcher).2
     = [demo_entry "Using system Python: /usr/bin/python3" "info"]
  /\ (build_command demo_env custom_python_launcher).2 <> custom_python_launcher
  /\ (build_command demo_env custom_python_launcher).1
     <> (build_command demo_env_with_file custom_python_launcher).1.
Proof.
  split; [reflexivity|]. split; [by vm_compute|]. split.
  - intros H. apply (f_equal logs) in H. vm_compute in H. discriminate H.
  - vm_compute. discriminate.
Qed.

(** ** Output reader: end of stream *)

Lemma deque_append_last {A} (n : nat) (d : list A) (x : A) :
  n <> 0%nat -> last (Deque.append n d x) = Some x.
Proof.
  intros Hn. unfold Deque.append.
  destruct (Nat.eqb_spec n 0) as [|_]; [done|].
  destruct (Nat.ltb_spec n (length (d ++ [x]))) as [Hlt|_]; [|apply last_snoc].
  destruct d as [|y d]; [simpl in Hlt; lia|]. apply last_snoc.
Qed.

Lemma reader_waits_for_exit e m i p :
  process (self m) = Some p -> poll e (pid p) = None ->
  step e (ReaderEOF i) m = m.
Proof.
  intros Hp Hpoll. cbn [step].
  destruct (readers m !! i) as [[]|]; [|done..]. by rewrite Hp, Hpoll.
Qed.



(** ** Start *)

Lemma start_when_running e st :
  is_running st = true -> start_fuxkcomfy e st = (already_running, st, []).
Proof. intros H. unfold start_fuxkcomfy. by rewrite H. Qed.

Lemma start_success e st r st1 effs :
  start_fuxkcomfy e st = (r, st1, effs) -> success r = true ->
  exists p, r_pid r = Some p /\ process st1 = Some {| pid := p |}
            /\ is_running st1 = true /\ process_pid st1 = Some p
            /\ restart_attempts st1 = 0
            /\ config st1 = config st.
Proof.
  unfold start_fuxkcomfy, start_failed.
  destruct (is_running st); [by intros [= <- <- <-]|].
  pose proof (build_command_state e st) as Hst.
  destruct (build_command e st) as [[ex|cmd] st0]; cbn [snd] in Hst;
    [by intros [= <- <- <-]|].
  destruct (join_items 0 cmd) as [ex|argv]; [by intros [= <- <- <-]|].
  destruct (popen e argv) as [ex|p]; [by intros [= <- <- <-]|].
  intros [= <- <- <-] _. exists p. subst st0. by repeat split.
Qed.

Lemma apply_effects_self m effs : self (apply_effects m effs) = self m.
Proof.
  unfold apply_effects. revert m. induction effs as [|eff effs IH]; intros m; [done|].
  cbn [foldl]. rewrite IH. by destruct eff as [| ? [] | []].
Qed.

Lemma set_self_same m : set_self (self m) m = m.
Proof. by destruct m. Qed.

Lemma step_start_when_running e m :
  is_running (self m) = true -> step e CallStart m = m.
Proof. intros H. cbn [step]. rewrite start_when_running by done. apply set_self_same. Qed.

(** While the child is alive and nobody calls stop, no event clears the
    running flag, replaces the handle or spawns a process. *)
Lemma step_keeps_running e ev m p :
  is_running (self m) = true ->
  process (self m) = Some {| pid := p |} ->
  poll e p = None ->
  (forall force, ev <> CallStop force) ->
  is_running (self (step e ev m)) = true
  /\ process (self (step e ev m)) = Some {| pid := p |}
  /\ spawned (step e ev m) = spawned m.
Proof.
  intros Hrun Hproc Hpoll Hstop. destruct ev as [|force| |i line|i|i].
  - by rewrite step_start_when_running.
  - by destruct (Hstop force).
  - done.
  - cbn [step]. destruct (readers m !! i) as [[]|]; [|done..].
    cbn [self set_self spawned]. unfold read_output_line.
    by destruct (negb _).
  - cbn [step]. destruct (readers m !! i) as [[]|]; [|done..].
    rewrite Hproc. cbn [pid]. by rewrite Hpoll.
  - cbn [step]. destruct (monitors m !! i) as [[]|]; [| | | |done];
      cbn [monitor_health_step];
      rewrite ?Hrun, ?Hproc; cbn [pid]; rewrite ?Hpoll, ?start_when_running by done;
      done.
Qed.

Lemma run_keeps_running sched m p :
  is_running (self m) = true ->
  process (self m) = Some {| pid := p |} ->
  Forall (fun ee => poll ee.1 p = None /\ forall force, ee.2 <> CallStop force) sched ->
  is_running (self (run sched m)) = true
  /\ process (self (run sched m)) = Some {| pid := p |}
  /\ spawned (run sched m) = spawned m.
Proof.
  revert m. induction sched as [|[e ev] sched IH]; intros m Hrun Hproc Hall; [done|].
  apply Forall_cons in Hall as [[Hpoll Hstop] Hall]. cbn [fst snd] in Hpoll, Hstop.
  destruct (step_keeps_running e ev m p Hrun Hproc Hpoll Hstop) as (Hrun' & Hproc' & Hsp).
  cbn [run foldl fst snd]. fold (run sched (step e ev m)).
  destruct (IH (step e ev m) Hrun' Hproc' Hall) as (? & ? & Hsp').
  by rewrite Hsp'.
Qed.

(** C4: after a successful start, as long as the child is alive and stop
    is not called, another start fails with "Process already running",
    spawns nothing and leaves the launcher, its threads and the stored
    process identifier as they were. *)
Theorem C4_second_start_rejected (e1 e2 : env) (m : machine) (sched : list (env * event))
    (r : result) (st1 : launcher) (effs : list effect) :
  start_fuxkcomfy e1 (self m) = (r, st1, effs) ->
  success r = true ->
  Forall (fun ee => (forall p, r_pid r = Some p -> poll ee.1 p = None)
                   /\ forall force, ee.2 <> CallStop force) sched ->
  let m1 := run sched (step e1 CallStart m) in
  start_fuxkcomfy e2 (self m1) = (already_running, self m1, [])
  /\ success already_running = false
  /\ step e2 CallStart m1 = m1
  /\ sv_pid (status (self m1)) = r_pid r
  /\ spawned m1 = spawned (step e1 CallStart m).
Proof.
  intros Hstart Hok Hsched m1.
  destruct (start_success e1 (self m) r st1 effs Hstart Hok)
    as (p & Hpid & Hproc & Hrun & _).
  assert (Hself : self (step e1 CallStart m) = st1).
  { cbn [step]. rewrite Hstart. by rewrite apply_effects_self. }
  destruct (run_keeps_running sched (step e1 CallStart m) p) as (Hrun1 & Hproc1 & Hsp).
  { by rewrite Hself. }
  { by rewrite Hself. }
  { eapply Forall_impl; [exact Hsched|]. intros ee [Hp Hs]. split; [by apply Hp | done]. }
  fold m1 in Hrun1, Hproc1, Hsp.
  split; [by apply start_when_running|]. split; [done|].
  split; [by apply step_start_when_running|].
  split; [|done]. unfold status. cbn [sv_pid]. by rewrite Hproc1, Hpid.
Qed.

Lemma C4_witness :
  let started := start_fuxkcomfy demo_env (self (init_machine default_config [])) in
  let m1 := run quiet_schedule started_machine in
  success started.1.1 = true
  /\ Forall (fun ee => (forall p, r_pid started.1.1 = Some p -> poll ee.1 p = None)
                      /\ forall force, ee.2 <> CallStop force) quiet_schedule
  /\ start_fuxkcomfy demo_env (self m1) = (already_running, self m1, [])
  /\ step demo_env CallStart m1 = m1
  /\ sv_pid (status (self m1)) = Some 4242.
Proof.
  intros started m1.
  assert (Hstart : started = (started.1.1, started.1.2, started.2))
    by (by destruct started as [[? ?] ?]).
  assert (Hok : success started.1.1 = true) by (by vm_compute).
  assert (Hsched : Forall (fun ee => (forall p, r_pid started.1.1 = Some p -> poll ee.1 p = None)
                      /\ forall force, ee.2 <> CallStop force) quiet_schedule).
  { unfold quiet_schedule. repeat constructor; intros; discriminate. }
  split; [exact Hok|]. split; [exact Hsched|].
  destruct (C4_second_start_rejected demo_env demo_env (init_machine default_config [])
              quiet_schedule _ _ _ Hstart Hok Hsched) as (H1 & _ & H2 & H3 & _).
  split; [exact H1|]. split; [exact H2|].
  etransitivity; [exact H3|]. by vm_compute.
Defined.

(** ** Stop *)

Lemma only_logs_differ_refl st : only_logs_differ st st.
Proof. by repeat split. Qed.

Lemma only_logs_differ_trans st1 st2 st3 :
  only_logs_differ st1 st2 -> only_logs_differ st2 st3 -> only_logs_differ st1 st3.
Proof. unfold only_logs_differ. intuition congruence. Qed.

Lemma log_message_only_logs e msg lvl st : only_logs_differ st (log_message e msg lvl st).
Proof. by repeat split. Qed.

Lemma log_all_only_logs e entries st : only_logs_differ st (log_all e entries st).
Proof.
  unfold log_all. revert st. induction entries as [|[msg lvl] entries IH]; intros st.
  - apply only_logs_differ_refl.
  - cbn [foldl]. eapply only_logs_differ_trans; [|apply IH]. apply log_message_only_logs.
Qed.

Ltac frame := repeat first
  [ apply only_logs_differ_refl
  | (eapply only_logs_differ_trans; [|apply log_message_only_logs])
  | (eapply only_logs_differ_trans; [|apply log_all_only_logs]) ].

(** What the attempt to terminate leaves behind, whether it worked or
    raised: flag, remembered pid and start time reset, handle kept. *)
Lemma stop_attempt_state e force target st :
  let r := (stop_attempt e force target st).1 in
  let st' := (stop_attempt e force target st).2 in
  is_running st' = false /\ process_pid st' = None /\ start_time st' = None
  /\ process st' = process st /\ config st' = config st
  /\ restart_attempts st' = restart_attempts st
  /\ (success r = true <-> k_raised (kill_tree e target force) = None).
Proof.
  unfold stop_attempt. cbv zeta.
  set (st2 := log_all e _ _).
  assert (H2 : only_logs_differ st st2) by (subst st2; frame).
  destruct (k_raised (kill_tree e target force)) as [ex|]; cbn [fst snd].
  - match goal with |- context [stop_reset ?s] => assert (H6 : only_logs_differ st s) end.
    { eapply only_logs_differ_trans; [exact H2|].
      match goal with
      | |- context [match ?handle with Some _ => _ | None => _ end] =>
          destruct handle as [q|]
      end;
        [destruct (poll e (pid q)); [|destruct (final_kill e (pid q))]|]; frame. }
    destruct H6 as (? & ? & ? & ? & ? & ? & ? & ?).
    by repeat split.
  - destruct H2 as (? & ? & ? & ? & ? & ? & ? & ?). by repeat split.
Qed.





(** ** Crash and automatic restart *)

Lemma run_app s1 s2 m : run (s1 ++ s2) m = run s2 (run s1 m).
Proof. unfold run. apply foldl_app. Qed.

Lemma lookup_last_thread {A} (k : nat) (a x : A) :
  (replicate k a ++ [x]) !! k = Some x.
Proof. apply list_lookup_middle. by rewrite length_replicate. Qed.

Lemma insert_last_thread {A} (k : nat) (a x y : A) :
  <[k := y]> (replicate k a ++ [x]) = replicate k a ++ [y].
Proof.
  rewrite insert_app_r_alt by (rewrite length_replicate; lia).
  rewrite length_replicate, Nat.sub_diag. done.
Qed.

Lemma deque_append_Forall {A} (P : A -> Prop) (n : nat) (d : list A) (x : A) :
  Forall P d -> P x -> Forall P (Deque.append n d x).
Proof.
  intros Hd Hx. unfold Deque.append. destruct (n =? 0)%nat; [done|].
  assert (Forall P (d ++ [x])) by (apply Forall_app; auto).
  destruct (_ <? _)%nat; [by apply Forall_tail | done].
Qed.

Lemma log_message_Forall (P : LogEntry -> Prop) e msg lvl st :
  Forall P (logs st) ->
  P {| timestamp := dt_now e; message := msg; level := lvl |} ->
  Forall P (logs (log_message e msg lvl st)).
Proof. intros. by apply deque_append_Forall. Qed.

(** With the auto-restart configuration the command line is fixed. *)
Lemma build_command_auto_restart e st :
  config st = auto_restart_config ->
  (build_command e st).1
  = inr (VStr <$> [sys_executable e; "-s"; "main.py"; "--windows-standalone-build";
                   "--port"; "8188"; "--listen"; "0.0.0.0"; "--auto-launch"])
  /\ python_message e st = "Using system Python: " +:+ sys_executable e.
Proof.
  intros Hcfg. split.
  - rewrite build_command_argv. unfold extra_tokens, interpreter.
    rewrite (flag_tokens_ext (init_launcher auto_restart_config []) st),
            (value_options_ext (init_launcher auto_restart_config []) st) by done.
    rewrite !(get_config_value_ext (init_launcher auto_restart_config []) st) by done.
    by vm_compute.
  - unfold python_message.
    rewrite !(get_config_value_ext (init_launcher auto_restart_config []) st) by done.
    by vm_compute.
Qed.

(** A start in that configuration, when the spawn works. *)
Lemma start_auto_restart e st :
  is_running st = false ->
  config st = auto_restart_config ->
  Forall (fun log => gave_up log = false) (logs st) ->
  (forall argv, exists p, popen e argv = inr p) ->
  exists p st1 saved argv,
    start_fuxkcomfy e st
    = (mk_result true "Process started successfully" (Some p), st1,
       [EffSaveHistory saved; EffPopen argv (inr p);
        EffThread read_output_target; EffThread monitor_health_target])
    /\ is_running st1 = true
    /\ process st1 = Some {| pid := p |}
    /\ restart_attempts st1 = 0
    /\ config st1 = auto_restart_config
    /\ Forall (fun log => gave_up log = false) (logs st1).
Proof.
  intros Hrun Hcfg Hlogs Hspawn. unfold start_fuxkcomfy. rewrite Hrun.
  destruct (build_command_auto_restart e st Hcfg) as [Hcmd Hmsg].
  pose proof (build_command_state e st) as Hst.
  destruct (build_command e st) as [built st0]. cbn [fst snd] in Hcmd, Hst. subst built st0.
  cbn [fmap list_fmap join_items].
  match goal with |- context [popen e ?argv] =>
    destruct (Hspawn argv) as [p Hp]; rewrite Hp; exists p end.
  do 3 eexists. split; [reflexivity|].
  split; [done|]. split; [done|]. split; [done|]. split; [done|].
  repeat apply log_message_Forall; try done.
  rewrite Hmsg. done.
Qed.

(** One crash of the schedule: the counter goes to 1, start is called and
    puts it back to 0, and a new lifetime begins. *)
Lemma crash_cycle_restarts e k m :
  (forall argv, exists p, popen e argv = inr p) ->
  (forall p, exists code, poll e p = Some code) ->
  restarted k m -> restarted (S k) (run (crash_cycle e k) m).
Proof.
  intros Hspawn Hdead (Hrun & [p Hproc] & Hcount & Hcfg & Hmon & Hrd & Hsp & Hlogs).
  destruct (Hdead p) as [code Hpoll].
  unfold crash_cycle, run. cbn [foldl fst snd].
  (* the monitor passes the loop test *)
  set (m1 := step e (MonitorStep k) m).
  assert (Hm1 : m1 = {| self := self m; monitors := replicate k MonDone ++ [MonSleep];
                        readers := readers m; spawned := spawned m |}).
  { subst m1. cbn [step]. rewrite Hmon, lookup_last_thread.
    cbn [monitor_health_step]. rewrite Hrun. cbn [apply_effects foldl].
    by rewrite insert_last_thread. }
  (* the reader records the exit *)
  set (m2 := step e (ReaderEOF k) m1).
  assert (Hm2 : m2 = {| self := read_output_exit e code (self m);
                        monitors := replicate k MonDone ++ [MonSleep];
                        readers := replicate k RdDone ++ [RdDone];
                        spawned := spawned m |}).
  { subst m2. rewrite Hm1. cbn [step readers self]. rewrite Hrd, lookup_last_thread.
    rewrite Hproc. cbn [pid]. rewrite Hpoll. cbn [monitors spawned].
    by rewrite insert_last_thread. }
  assert (Hexit : is_running (read_output_exit e code (self m)) = false
                  /\ process (read_output_exit e code (self m)) = Some {| pid := p |}
                  /\ restart_attempts (read_output_exit e code (self m)) = 0
                  /\ config (read_output_exit e code (self m)) = auto_restart_config
                  /\ Forall (fun log => gave_up log = false)
                       (logs (read_output_exit e code (self m)))).
  { unfold read_output_exit. rewrite Hproc.
    destruct (code =? 0); (split_and!; [done..|]);
      cbn [logs set_last_crash_time]; by apply log_message_Forall. }
  destruct Hexit as (Hrun2 & Hproc2 & Hcount2 & Hcfg2 & Hlogs2).
  set (st2 := read_output_exit e code (self m)) in *.
  (* the monitor sees the exit and counts the attempt *)
  set (m3 := step e (MonitorStep k) m2).
  set (st3 := log_message e "Auto-restart attempt 1/3" "warning" (set_restart_attempts 1 st2)).
  assert (Hm3 : m3 = {| self := st3;
                        monitors := replicate k MonDone ++ [MonSettle];
                        readers := replicate k RdDone ++ [RdDone];
                        spawned := spawned m |}).
  { subst m3. rewrite Hm2. cbn [step monitors self]. rewrite lookup_last_thread.
    cbn [monitor_health_step]. rewrite Hproc2. cbn [pid]. rewrite Hpoll.
    rewrite !(get_config_value_ext (init_launcher auto_restart_config []) st2) by done.
    change (truthy (get_config_value (init_launcher auto_restart_config [])
                      "auto_restart" (VBool false))) with true.
    change (get_config_value (init_launcher auto_restart_config [])
              "max_restart_attempts" (VInt 3)) with (VInt 3).
    cbn [py_int_lt]. rewrite Hcount2. cbn [Z.ltb Z.compare Z.add].
    cbn [apply_effects foldl readers spawned restart_attempts set_restart_attempts].
    by rewrite insert_last_thread. }
  (* after the settle delay the monitor calls start *)
  assert (Hrun3 : is_running st3 = false) by exact Hrun2.
  assert (Hcfg3 : config st3 = auto_restart_config) by exact Hcfg2.
  assert (Hlogs3 : Forall (fun log => gave_up log = false) (logs st3)).
  { subst st3. apply log_message_Forall; [exact Hlogs2 | reflexivity]. }
  destruct (start_auto_restart e st3 Hrun3 Hcfg3 Hlogs3 Hspawn)
    as (p' & st4 & saved & argv & Hstart & Hrun4 & Hproc4 & Hcount4 & Hcfg4 & Hlogs4).
  rewrite Hm3. cbn [step monitors self]. rewrite lookup_last_thread.
  cbn [monitor_health_step]. rewrite Hstart.
  cbn [apply_effects foldl apply_effect self monitors readers spawned].
  rewrite insert_last_thread.
  unfold restarted. cbn [self monitors readers spawned].
  rewrite !replicate_S_end.
  split; [exact Hrun4|]. split; [by exists p'|]. split; [exact Hcount4|].
  split; [exact Hcfg4|]. split; [reflexivity|]. split; [reflexivity|].
  split; [|exact Hlogs4]. rewrite length_app. cbn [length]. lia.
Qed.

Lemma first_start_restarted e :
  (forall argv, exists p, popen e argv = inr p) ->
  restarted 0 (step e CallStart (init_machine auto_restart_config [])).
Proof.
  intros Hspawn.
  destruct (start_auto_restart e (init_launcher auto_restart_config [])
              eq_refl eq_refl (Forall_nil_2 _) Hspawn)
    as (p & st1 & saved & argv & Hstart & Hrun & Hproc & Hcount & Hcfg & Hlogs).
  cbn [step init_machine self]. rewrite Hstart.
  unfold restarted. cbn [apply_effects foldl apply_effect set_self self monitors readers spawned].
  split; [exact Hrun|]. split; [by exists p|]. split; [exact Hcount|].
  split; [exact Hcfg|]. split; [reflexivity|]. split; [reflexivity|].
  split; [reflexivity | exact Hlogs].
Qed.

Lemma crash_schedule_restarts e n :
  (forall argv, exists p, popen e argv = inr p) ->
  (forall p, exists code, poll e p = Some code) ->
  restarted n (run (crash_schedule e n) (step e CallStart (init_machine auto_restart_config []))).
Proof.
  intros Hspawn Hdead. induction n as [|n IH].
  - by apply first_start_restarted.
  - unfold crash_schedule. rewrite seq_S, flat_map_app, run_app.
    cbn [flat_map]. rewrite app_nil_r. by apply crash_cycle_restarts.
Qed.

(** C1, in the code: with auto-restart on and [max_restart_attempts] at 3,
    when every child spawned crashes, each crash is followed by a restart
    without end.  After [n] crashes [n+1] processes have been spawned, the
    counter is back at 0, the process is marked running and no "giving up"
    entry has been logged: [start_fuxkcomfy] resets the counter that
    [monitor_health] compares with the maximum. *)
Theorem C1_restart_counter_reset_by_start (e : env) (n : nat) :
  (forall argv, exists p, popen e argv = inr p) ->
  (forall p, exists code, poll e p = Some code) ->
  let m := run (crash_schedule e n)
             (step e CallStart (init_machine auto_restart_config [])) in
  length (spawned m) = S n
  /\ restart_attempts (self m) = 0
  /\ is_running (self m) = true
  /\ Forall (fun log => gave_up log = false) (logs (self m)).
Proof.
  intros Hspawn Hdead m.
  destruct (crash_schedule_restarts e n Hspawn Hdead) as (? & _ & ? & _ & _ & _ & ? & ?).
  by split_and!.
Qed.

Lemma C1_witness :
  (forall argv, exists p, popen demo_env argv = inr p)
  /\ (forall p, exists code, poll demo_env p = Some code)
  /\ let m := run (crash_schedule demo_env 4)
               (step demo_env CallStart (init_machine auto_restart_config [])) in
     length (spawned m) = 5%nat
     /\ restart_attempts (self m) = 0
     /\ is_running (self m) = true.
Proof.
  assert (H1 : forall argv, exists p, popen demo_env argv = inr p) by (by exists 4242).
  assert (H2 : forall p, exists code, poll demo_env p = Some code) by (by exists 1).
  split; [exact H1|]. split; [exact H2|].
  destruct (C1_restart_counter_reset_by_start demo_env 4 H1 H2) as (Hs & Hc & Hr & _).
  by split_and!.
Defined.

(** The same four crashes, run: every attempt is announced as 1 of 3. *)
Lemma four_crashes_four_restarts :
  let m := run (crash_schedule demo_env 4)
             (step demo_env CallStart (init_machine auto_restart_config [])) in
  spawned m = [4242; 4242; 4242; 4242; 4242]
  /\ monitors m = [MonDone; MonDone; MonDone; MonDone; MonLoop]
  /\ restart_attempts (self m) = 0
  /\ is_running (self m) = true
  /\ List.filter (fun s => PyStr.startswith "Auto-restart" s) (message <$> logs (self m))
     = replicate 4 "Auto-restart attempt 1/3"
  /\ List.filter gave_up (logs (self m)) = [].
Proof. by vm_compute. Qed.

(* ===================================================================== *)
(** * Further properties of the launcher *)
(* ===================================================================== *)

(** ** What a start can do *)

(** The three ways [start_fuxkcomfy] ends: rejected, failed, started. *)
Lemma start_outcomes e st :
  let r := (start_fuxkcomfy e st).1.1 in
  let st' := (start_fuxkcomfy e st).1.2 in
  let effs := (start_fuxkcomfy e st).2 in
  (is_running st = true /\ st' = st /\ effs = [] /\ r = already_running)
  \/ (is_running st = false /\ success r = false /\ r_pid r = None
      /\ same_lifetime st st'
      /\ forallb (fun eff => negb (starts_something eff)) effs = true)
  \/ (is_running st = false /\ success r = true
      /\ exists p argv,
           r_pid r = Some p /\ popen e argv = inr p
           /\ process st' = Some {| pid := p |} /\ is_running st' = true
           /\ process_pid st' = Some p /\ config st' = config st
           /\ restart_attempts st' = 0 /\ start_time st' = Some (time_time e)
           /\ last_crash_time st' = last_crash_time st
           /\ effs = [EffSaveHistory (history st'); EffPopen argv (inr p);
                      EffThread read_output_target; EffThread monitor_health_target]).
Proof.
  unfold start_fuxkcomfy, start_failed.
  destruct (is_running st) eqn:Hrun; [by left|]. right.
  pose proof (build_command_state e st) as Hst.
  destruct (build_command e st) as [[ex|cmd] st0]; cbn [snd] in Hst; subst st0.
  { left. by repeat split. }
  destruct (join_items 0 cmd) as [ex|argv]; [left; by repeat split|].
  destruct (popen e argv) as [ex|p] eqn:Hp; [left; by repeat split|].
  right. split; [done|]. split; [done|]. exists p, argv. by repeat split.
Qed.

Lemma only_logs_same_lifetime st st' : only_logs_differ st st' -> same_lifetime st st'.
Proof. unfold only_logs_differ, same_lifetime. tauto. Qed.

Lemma same_lifetime_consistent st st' : same_lifetime st st' -> consistent st -> consistent st'.
Proof.
  intros (Hp & Hr & Hpid & _) [H1 H2]. unfold consistent. rewrite Hp, Hr, Hpid. done.
Qed.

(** The ways [stop_fuxkcomfy] ends: nothing to stop, a stale handle found
    dead, or a termination attempt. *)
Lemma stop_outcomes e force st :
  let r := (stop_fuxkcomfy e force st).1 in
  let st' := (stop_fuxkcomfy e force st).2 in
  (process st = None /\ pid_truthy (process_pid st) = false /\ st' = st
   /\ r = mk_result false "Process not running" None)
  \/ (exists p, process st = Some p /\ is_running st = false
      /\ psutil_is_running e (pid p) = false
      /\ st' = set_process_pid None (set_process None (set_is_running false
                 (log_message e "Process confirmed not running" "info"
                    (log_message e
                       "Process object exists but is_running=False, checking actual status..."
                       "warning" st))))
      /\ r = mk_result false "Process not running" None)
  \/ (is_running st' = false /\ process_pid st' = None /\ start_time st' = None
      /\ process st' = process st /\ config st' = config st
      /\ restart_attempts st' = restart_attempts st
      /\ (process st = None -> pid_truthy (process_pid st) = true)
      /\ (success r = true <-> k_raised (kill_tree e (stop_target st) force) = None)).
Proof.
  unfold stop_fuxkcomfy, stop_target.
  destruct (process st) as [p|] eqn:Hp.
  - destruct (is_running st) eqn:Hrun; cbn [negb].
    + right; right.
      destruct (stop_attempt_state e force (pid p) st) as (? & ? & ? & Hq & ? & ? & Hiff).
      rewrite Hq, Hp. by split_and!.
    + destruct (psutil_is_running e (pid p)) eqn:Halive.
      * right; right.
        match goal with |- context [stop_attempt e force (pid p) ?s] =>
          destruct (stop_attempt_state e force (pid p) s) as (? & ? & ? & Hq & ? & ? & Hiff)
        end.
        rewrite Hq. cbn [process set_is_running log_message set_logs]. rewrite Hp.
        by split_and!.
      * right; left. exists p. by split_and!.
  - destruct (pid_truthy (process_pid st)) eqn:Hpid.
    + right; right.
      match goal with |- context [stop_attempt e force ?t ?s] =>
        destruct (stop_attempt_state e force t s) as (? & ? & ? & Hq & ? & ? & Hiff)
      end.
      rewrite Hq. cbn [process log_message set_logs]. rewrite Hp.
      by split_and!.
    + left. by split_and!.
Qed.

(** ** Invariants over every schedule *)

(** A property of the launcher kept by each operation is kept by each
    event of the machine. *)
Lemma step_invariant (P : launcher -> Prop) :
  (forall e st, P st -> P (start_fuxkcomfy e st).1.2) ->
  (forall e force st, P st -> P (stop_fuxkcomfy e force st).2) ->
  (forall e st, P st -> P (clear_logs e st)) ->
  (forall e line st, P st -> P (read_output_line e line st)) ->
  (forall e code st, P st -> P (read_output_exit e code st)) ->
  (forall e pc st, P st -> P (monitor_health_step e pc st).1.2) ->
  forall e ev m, P (self m) -> P (self (step e ev m)).
Proof.
  intros Hstart Hstop Hclear Hline Hexit Hmon e ev m HP.
  destruct ev as [|force| |i line|i|i]; cbn [step].
  - specialize (Hstart e (self m) HP).
    destruct (start_fuxkcomfy e (self m)) as [[r st'] effs].
    by rewrite apply_effects_self.
  - specialize (Hstop e force (self m) HP).
    by destruct (stop_fuxkcomfy e force (self m)) as [r st'].
  - by apply Hclear.
  - destruct (readers m !! i) as [[]|]; [|done..]. by apply Hline.
  - destruct (readers m !! i) as [[]|]; [|done..].
    destruct (process (self m)) as [p|]; [|by apply Hexit].
    destruct (poll e (pid p)); [by apply Hexit | done].
  - destruct (monitors m !! i) as [pc|]; [|done].
    specialize (Hmon e pc (self m) HP).
    destruct (monitor_health_step e pc (self m)) as [[pc' st'] effs].
    by rewrite apply_effects_self.
Qed.

Lemma run_invariant (P : launcher -> Prop) :
  (forall e ev m, P (self m) -> P (self (step e ev m))) ->
  forall sched m, P (self m) -> P (self (run sched m)).
Proof.
  intros Hstep sched. induction sched as [|[e ev] sched IH]; intros m HP; [done|].
  cbn [run foldl fst snd]. apply IH. by apply Hstep.
Qed.

(** *** Flag, handle and remembered pid *)

Lemma start_consistent e st : consistent st -> consistent (start_fuxkcomfy e st).1.2.
Proof.
  intros Hc. destruct (start_outcomes e st) as [(_ & -> & _)|[(_ & _ & _ & Hsame & _)|H]].
  - done.
  - by eapply same_lifetime_consistent.
  - destruct H as (_ & _ & p & argv & _ & _ & Hp & _ & Hpid & _).
    split; intros H; by rewrite Hp in *.
Qed.

Lemma stop_consistent e force st : consistent st -> consistent (stop_fuxkcomfy e force st).2.
Proof.
  intros Hc. destruct (stop_outcomes e force st) as [(_ & _ & -> & _)|[H|H]].
  - done.
  - destruct H as (p & _ & _ & _ & -> & _). by split.
  - destruct H as (Hrun & Hpid & _). split; [by rewrite Hrun | done].
Qed.

Lemma read_output_exit_consistent e code st :
  consistent st -> consistent (read_output_exit e code st).
Proof.
  intros Hc. unfold read_output_exit. destruct (process st) as [p|] eqn:Hp.
  - destruct (code =? 0); by split.
  - eapply same_lifetime_consistent; [|done].
    apply only_logs_same_lifetime, log_message_only_logs.
Qed.

Lemma read_output_line_only_logs e line st : only_logs_differ st (read_output_line e line st).
Proof.
  unfold read_output_line. destruct (negb _);
    [apply log_message_only_logs | apply only_logs_differ_refl].
Qed.

Lemma clear_logs_only_logs e st : only_logs_differ st (clear_logs e st).
Proof. by repeat split. Qed.

Lemma monitor_consistent e pc st : consistent st -> consistent (monitor_health_step e pc st).1.2.
Proof.
  intros Hc. destruct pc; cbn [monitor_health_step].
  - by destruct (is_running st).
  - destruct (process st) as [p|] eqn:Hp; [|done].
    destruct (poll e (pid p)); [|done].
    destruct (truthy _); [|done].
    destruct (py_int_lt _ _) as [[]|]; [| |done].
    + split; cbn; [by rewrite Hp | by rewrite Hp].
    + split; cbn; [done | by rewrite Hp].
  - pose proof (start_consistent e st Hc) as H.
    by destruct (start_fuxkcomfy e st) as [[r st'] effs].
  - done.
Qed.

Lemma step_consistent e ev m : consistent (self m) -> consistent (self (step e ev m)).
Proof.
  apply (step_invariant consistent).
  - apply start_consistent.
  - apply stop_consistent.
  - intros e' st H. eapply same_lifetime_consistent; [|done].
    apply only_logs_same_lifetime, clear_logs_only_logs.
  - intros e' line st H. eapply same_lifetime_consistent; [|done].
    apply only_logs_same_lifetime, read_output_line_only_logs.
  - apply read_output_exit_consistent.
  - apply monitor_consistent.
Qed.

(** X1: whatever the requests and the interleaving of the threads since
    start-up, the running flag is never true without a stored handle and
    no pid is remembered without one: [/api/status] never shows
    running=true with pid null, and a stop that finds no handle finds
    nothing to clean up and changes nothing. *)
Theorem X1_flag_and_handle_stay_consistent (sched : list (env * event))
    (cfg : gmap string value) (hist : list history_entry) (e : env) (force : bool) :
  let st := self (run sched (init_machine cfg hist)) in
  (sv_running (status st) = true -> sv_pid (status st) <> None)
  /\ (process st = None ->
      process_pid st = None
      /\ stop_fuxkcomfy e force st = (mk_result false "Process not running" None, st)).
Proof.
  intros st.
  assert (Hc : consistent st).
  { apply run_invariant; [apply step_consistent | by split]. }
  destruct Hc as [H1 H2]. split.
  - unfold status. cbn [sv_running sv_pid]. intros Hrun.
    specialize (H1 Hrun). by destruct (process st).
  - intros Hnone. specialize (H2 Hnone). split; [done|].
    unfold stop_fuxkcomfy. by rewrite Hnone, H2.
Qed.

Lemma X1_witness :
  sv_running (status (self (run [(demo_env, CallStart)] (init_machine default_config []))))
  = true
  /\ sv_pid (status (self (run [(demo_env, CallStart)] (init_machine default_config []))))
     <> None
  /\ process (self (run [] (init_machine default_config []))) = None
  /\ stop_fuxkcomfy demo_env true (self (run [] (init_machine default_config [])))
     = (mk_result false "Process not running" None,
        self (run [] (init_machine default_config []))).
Proof.
  assert (H1 : sv_running (status (self (run [(demo_env, CallStart)]
                                           (init_machine default_config [])))) = true)
    by (by vm_compute).
  assert (H2 : process (self (run [] (init_machine default_config []))) = None)
    by reflexivity.
  split; [exact H1|].
  split; [exact (proj1 (X1_flag_and_handle_stay_consistent [(demo_env, CallStart)]
                          default_config [] demo_env true) H1)|].
  split; [exact H2|].
  exact (proj2 (proj2 (X1_flag_and_handle_stay_consistent [] default_config []
                         demo_env true) H2)).
Defined.

(** *** The size of the log sink *)

Lemma log_all_bound e entries st :
  (length (logs st) <= LOGS_MAXLEN)%nat ->
  (length (logs (log_all e entries st)) <= LOGS_MAXLEN)%nat.
Proof.
  unfold log_all. revert st. induction entries as [|[msg lvl] entries IH]; intros st H; [done|].
  cbn [foldl]. by apply IH, log_message_bound.
Qed.

Ltac logs_bound :=
  repeat first
    [ assumption
    | apply log_message_bound
    | apply log_all_bound
    | progress cbn [logs set_history set_process set_is_running set_start_time
                    set_process_pid set_restart_attempts set_last_crash_time
                    stop_reset fst snd] ].

Lemma start_bound e st :
  (length (logs st) <= LOGS_MAXLEN)%nat ->
  (length (logs (start_fuxkcomfy e st).1.2) <= LOGS_MAXLEN)%nat.
Proof.
  intros H. unfold start_fuxkcomfy, start_failed.
  destruct (is_running st); [done|].
  pose proof (build_command_state e st) as Hst.
  destruct (build_command e st) as [[ex|cmd] st0]; cbn [snd] in Hst; subst st0;
    [by logs_bound|].
  destruct (join_items 0 cmd) as [ex|argv]; [by logs_bound|].
  destruct (popen e argv) as [ex|p]; by logs_bound.
Qed.

Lemma stop_bound e force st :
  (length (logs st) <= LOGS_MAXLEN)%nat ->
  (length (logs (stop_fuxkcomfy e force st).2) <= LOGS_MAXLEN)%nat.
Proof.
  intros H.
  assert (Hattempt : forall target s, (length (logs s) <= LOGS_MAXLEN)%nat ->
            (length (logs (stop_attempt e force target s).2) <= LOGS_MAXLEN)%nat).
  { intros target s Hs. unfold stop_attempt. cbv zeta.
    destruct (k_raised _); [|by logs_bound].
    cbn [snd]. unfold stop_reset. cbn [logs set_start_time set_process_pid set_is_running].
    match goal with
    | |- context [match ?handle with Some _ => _ | None => _ end] =>
        destruct handle as [q|]
    end; [destruct (poll e (pid q)); [|destruct (final_kill e (pid q))]|]; by logs_bound. }
  unfold stop_fuxkcomfy, stop_confirmed_dead.
  destruct (process st) as [p|].
  - destruct (is_running st); cbn [negb]; [by apply Hattempt|].
    destruct (psutil_is_running e (pid p)); [apply Hattempt|]; by logs_bound.
  - destruct (pid_truthy _); [apply Hattempt|]; by logs_bound.
Qed.

Lemma read_output_exit_bound e code st :
  (length (logs st) <= LOGS_MAXLEN)%nat ->
  (length (logs (read_output_exit e code st)) <= LOGS_MAXLEN)%nat.
Proof.
  intros H. unfold read_output_exit, read_output_error.
  destruct (process st); [destruct (code =? 0)|]; by logs_bound.
Qed.

Lemma monitor_bound e pc st :
  (length (logs st) <= LOGS_MAXLEN)%nat ->
  (length (logs (monitor_health_step e pc st).1.2) <= LOGS_MAXLEN)%nat.
Proof.
  intros H. destruct pc; cbn [monitor_health_step].
  - by destruct (is_running st).
  - destruct (process st) as [p|]; [|done].
    destruct (poll e (pid p)); [|done].
    destruct (truthy _); [|done].
    destruct (py_int_lt _ _) as [[]|]; by logs_bound.
  - pose proof (start_bound e st H) as Hs.
    by destruct (start_fuxkcomfy e st) as [[r st'] effs].
  - done.
Qed.

(** X2: whatever the requests and the interleaving of the threads since
    start-up (start, stop with any outcome of the kill and any entries it
    logs, clearing, output lines, exits, monitor steps), the log sink never
    holds more than 2000 entries. *)
Theorem X2_log_sink_bounded_under_every_event (sched : list (env * event))
    (cfg : gmap string value) (hist : list history_entry) :
  (length (logs (self (run sched (init_machine cfg hist)))) <= 2000)%nat.
Proof.
  apply (run_invariant (fun st => (length (logs st) <= LOGS_MAXLEN)%nat)).
  - apply (step_invariant (fun st => (length (logs st) <= LOGS_MAXLEN)%nat)).
    + apply start_bound.
    + apply stop_bound.
    + intros. apply clear_logs_bound.
    + intros e line st H. unfold read_output_line. destruct (negb _); by logs_bound.
    + apply read_output_exit_bound.
    + apply monitor_bound.
  - cbn. lia.
Qed.

(** *** The configuration and the restart counter *)

Lemma start_config e st : config (start_fuxkcomfy e st).1.2 = config st.
Proof.
  destruct (start_outcomes e st) as [(_ & -> & _)|[(_ & _ & _ & Hsame & _)|H]].
  - done.
  - apply Hsame.
  - by destruct H as (_ & _ & p & argv & _ & _ & _ & _ & _ & Hcfg & _).
Qed.

Lemma stop_config_counter e force st :
  config (stop_fuxkcomfy e force st).2 = config st
  /\ restart_attempts (stop_fuxkcomfy e force st).2 = restart_attempts st.
Proof.
  destruct (stop_outcomes e force st) as [(_ & _ & -> & _)|[H|H]].
  - done.
  - by destruct H as (p & _ & _ & _ & -> & _).
  - by destruct H as (_ & _ & _ & _ & Hcfg & Hcount & _).
Qed.

Lemma read_output_exit_config_counter e code st :
  config (read_output_exit e code st) = config st
  /\ restart_attempts (read_output_exit e code st) = restart_attempts st.
Proof.
  unfold read_output_exit. by destruct (process st); [destruct (code =? 0)|].
Qed.

Lemma monitor_config e pc st : config (monitor_health_step e pc st).1.2 = config st.
Proof.
  destruct pc; cbn [monitor_health_step].
  - by destruct (is_running st).
  - destruct (process st) as [p|]; [|done].
    destruct (poll e (pid p)); [|done].
    destruct (truthy _); [|done].
    by destruct (py_int_lt _ _) as [[]|].
  - pose proof (start_config e st) as Hs.
    by destruct (start_fuxkcomfy e st) as [[r st'] effs].
  - done.
Qed.

(** X3: no request to start or stop, no clearing of the logs and no step
    of a background thread changes the configuration: after any schedule
    it is the one the launcher was created with. *)
Theorem X3_configuration_untouched_by_supervision (sched : list (env * event))
    (cfg : gmap string value) (hist : list history_entry) :
  config (self (run sched (init_machine cfg hist))) = cfg.
Proof.
  apply (run_invariant (fun st => config st = cfg)); [|done].
  apply (step_invariant (fun st => config st = cfg)).
  - intros e st <-. apply start_config.
  - intros e force st <-. apply stop_config_counter.
  - by intros e st <-.
  - intros e line st <-. apply read_output_line_only_logs.
  - intros e code st <-. apply read_output_exit_config_counter.
  - intros e pc st <-. apply monitor_config.
Qed.

Lemma start_counter e st mx :
  0 <= mx -> 0 <= restart_attempts st <= mx ->
  0 <= restart_attempts (start_fuxkcomfy e st).1.2 <= mx.
Proof.
  intros Hmx Hc.
  destruct (start_outcomes e st) as [(_ & -> & _)|[(_ & _ & _ & Hsame & _)|H]].
  - done.
  - destruct Hsame as (_ & _ & _ & _ & -> & _). done.
  - destruct H as (_ & _ & p & argv & _ & _ & _ & _ & _ & _ & -> & _). lia.
Qed.

Lemma monitor_counter e pc st mx :
  get_config_value st "max_restart_attempts" (VInt 3) = VInt mx ->
  0 <= mx -> 0 <= restart_attempts st <= mx ->
  0 <= restart_attempts (monitor_health_step e pc st).1.2 <= mx.
Proof.
  intros Hmax Hmx Hc. destruct pc; cbn [monitor_health_step].
  - by destruct (is_running st).
  - destruct (process st) as [p|]; [|done].
    destruct (poll e (pid p)); [|done].
    destruct (truthy _); [|done].
    rewrite Hmax. cbn [py_int_lt].
    destruct (Z.ltb_spec (restart_attempts st) mx); cbn; [lia | done].
  - pose proof (start_counter e st mx Hmx Hc) as Hs.
    by destruct (start_fuxkcomfy e st) as [[r st'] effs].
  - done.
Qed.

(** The waking step of a monitor is its test followed by its increment. *)
Lemma monitor_step_check_count e st max_attempts :
  monitor_check e st = Some max_attempts ->
  monitor_health_step e MonSleep st = (MonSettle, monitor_count e max_attempts st, []).
Proof.
  unfold monitor_check, monitor_count. cbn [monitor_health_step].
  destruct (process st) as [p|]; [|done].
  destruct (poll e (pid p)); [|done].
  destruct (truthy _); [|done].
  destruct (py_int_lt _ _) as [[|]|]; [|done|done].
  by intros [= <-].
Qed.

(** The test and the increment are two statements.  With the counter one
    below the maximum, a monitor that tests after another has incremented
    is turned away; two monitors that both pass the test before either
    increments leave the counter above the maximum. *)
Lemma monitor_check_then_two_counts e st mx :
  monitor_check e st = Some (VInt mx) ->
  restart_attempts st = mx - 1 ->
  monitor_check e (monitor_count e (VInt mx) st) = None
  /\ restart_attempts (monitor_count e (VInt mx) (monitor_count e (VInt mx) st)) = mx + 1.
Proof.
  intros Hchk Hc. split; [|cbn; lia].
  unfold monitor_check, monitor_count, log_message, get_config_value in *.
  cbn [process config restart_attempts set_restart_attempts set_logs] in *.
  destruct (process st) as [p|]; [|done].
  destruct (poll e (pid p)); [|done].
  destruct (truthy _); [|done].
  destruct (py_int_lt (restart_attempts st) _) as [[|]|]; [|done|done].
  injection Hchk as ->. cbn [py_int_lt]. rewrite Hc.
  destruct (Z.ltb_spec (mx - 1 + 1) mx); [lia|done].
Qed.

(** X4: with the configuration unchanged and [max_restart_attempts] a
    non-negative integer [mx] (3 when the key is missing), the restart
    counter stays between 0 and [mx] after any sequence of requests and
    thread steps in which each monitor step, the test of line 602 with the
    increment of line 603, runs as one step. *)
Theorem X4_restart_counter_within_maximum (sched : list (env * event))
    (cfg : gmap string value) (hist : list history_entry) (mx : Z) :
  default (VInt 3) (cfg !! "max_restart_attempts") = VInt mx ->
  0 <= mx ->
  0 <= restart_attempts (self (run sched (init_machine cfg hist))) <= mx.
Proof.
  intros Hmax Hmx.
  cut (config (self (run sched (init_machine cfg hist))) = cfg
       /\ 0 <= restart_attempts (self (run sched (init_machine cfg hist))) <= mx); [tauto|].
  apply (run_invariant (fun st => config st = cfg /\ 0 <= restart_attempts st <= mx)).
  - apply (step_invariant (fun st => config st = cfg /\ 0 <= restart_attempts st <= mx)).
    + intros e st [<- Hc]. split; [apply start_config | by apply start_counter].
    + intros e force st [<- Hc].
      destruct (stop_config_counter e force st) as [-> ->]. done.
    + by intros e st [<- Hc].
    + intros e line st [<- Hc].
      destruct (read_output_line_only_logs e line st) as (_ & _ & -> & _ & -> & _). done.
    + intros e code st [<- Hc].
      destruct (read_output_exit_config_counter e code st) as [-> ->]. done.
    + intros e pc st [<- Hc]. split; [apply monitor_config|].
      by apply monitor_counter.
  - split; [done|]. cbn. lia.
Qed.

Lemma X4_witness :
  default (VInt 3) (single_restart_config !! "max_restart_attempts") = VInt 1
  /\ restart_attempts (self (run (crash_seen demo_env)
                               (init_machine single_restart_config []))) = 1
  /\ 0 <= restart_attempts (self (run (crash_seen demo_env)
                                    (init_machine single_restart_config []))) <= 1.
Proof.
  assert (H : default (VInt 3) (single_restart_config !! "max_restart_attempts") = VInt 1)
    by (vm_compute; reflexivity).
  split; [exact H|]. split; [vm_compute; reflexivity|].
  exact (X4_restart_counter_within_maximum (crash_seen demo_env)
           single_restart_config [] 1 H ltac:(lia)).
Defined.

(** ** Starts that fail *)

Lemma join_items_non_string cmd i k v :
  cmd !! i = Some v -> (forall s, v <> VStr s) ->
  exists j w, (forall s, w <> VStr s)
    /\ join_items k cmd
       = inl ("sequence item " +:+ PyStr.of_Z (Z.of_nat j)
              +:+ ": expected str instance, " +:+ type_name w +:+ " found").
Proof.
  revert i k. induction cmd as [|x cmd IH]; intros i k Hi Hv; [done|].
  destruct i as [|i].
  - injection Hi as ->. exists k, v. split; [done|].
    destruct v as [| | |s]; try reflexivity. by destruct (Hv s).
  - cbn in Hi. destruct (IH i (S k) Hi Hv) as (j & w & Hw & Hj).
    destruct x as [| b | n | s].
    + exists k, VNone. by split.
    + exists k, (VBool b). by split.
    + exists k, (VInt n). by split.
    + exists j, w. split; [done|]. cbn [join_items]. by rewrite Hj.
Qed.

Lemma join_items_strings k argv : join_items k (VStr <$> argv) = inr argv.
Proof.
  revert k. induction argv as [|s argv IH]; intros k; [done|].
  cbn [fmap list_fmap join_items]. fold (VStr <$> argv). by rewrite IH.
Qed.

(** X5: when the configured port is not a string (the JSON number 8188,
    say), every start of an idle launcher fails: nothing is spawned, no
    thread is started, no history entry is written and the process fields
    stay as they were; only log entries are added. *)
Theorem X5_port_not_a_string_fails_every_start (e : env) (st : launcher) :
  is_running st = false ->
  (forall s, get_config_value st "port" (VStr "8188") <> VStr s) ->
  let r := (start_fuxkcomfy e st).1.1 in
  let st' := (start_fuxkcomfy e st).1.2 in
  success r = false /\ r_pid r = None
  /\ (start_fuxkcomfy e st).2 = []
  /\ same_lifetime st st'
  /\ history st' = history st
  /\ exists why, r_message r = "Start failed: " +:+ why
       /\ last (logs st')
          = Some {| timestamp := dt_now e;
                    message := "Failed to start process: " +:+ why; level := "error" |}.
Proof.
  intros Hrun Hport. unfold start_fuxkcomfy, start_failed. rewrite Hrun.
  pose proof (build_command_state e st) as Hst.
  pose proof (build_command_argv e st) as Hargv.
  destruct (build_command e st) as [[ex|cmd] st0]; cbn [fst snd] in Hst, Hargv; subst st0.
  { cbn [fst snd]. split_and!; try done. exists ex. split; [done|].
    by apply deque_append_last. }
  unfold with_extra in Hargv. destruct (extra_tokens st) as [ex|extra]; [done|].
  injection Hargv as ->.
  match goal with |- context [join_items 0 ?c] =>
    destruct (join_items_non_string c 5 0 (get_config_value st "port" (VStr "8188")))
      as (j & w & _ & ->); [reflexivity | exact Hport |]
  end.
  cbn [fst snd]. split_and!; try done. eexists. split; [reflexivity|].
  by apply deque_append_last.
Qed.

Lemma X5_witness :
  let st := init_launcher (<["port" := VInt 8188]> default_config) [] in
  is_running st = false
  /\ (forall s, get_config_value st "port" (VStr "8188") <> VStr s)
  /\ success (start_fuxkcomfy demo_env st).1.1 = false
  /\ (start_fuxkcomfy demo_env st).2 = [].
Proof.
  intros st.
  assert (H : forall s, get_config_value st "port" (VStr "8188") <> VStr s).
  { intros s. by vm_compute. }
  split; [reflexivity|]. split; [exact H|].
  destruct (X5_port_not_a_string_fails_every_start demo_env st eq_refl H)
    as (H1 & _ & H2 & _).
  by split.
Defined.

(** X6: a start that gets as far as the spawn appends exactly one entry
    to the in-memory history (time stamp, the command line joined with
    spaces, the configuration) and hands the history to [save_history],
    whether the spawn then works or not. *)
Theorem X6_history_records_every_spawn_attempt (e : env) (st : launcher)
    (argv : list string) :
  is_running st = false ->
  (build_command e st).1 = inr (VStr <$> argv) ->
  let st' := (start_fuxkcomfy e st).1.2 in
  let entry := {| h_timestamp := isoformat (dt_now e);
                  h_command := PyStr.join " " argv;
                  h_config := config st |} in
  history st' = history st ++ [entry]
  /\ head (start_fuxkcomfy e st).2 = Some (EffSaveHistory (history st ++ [entry]))
  /\ (start_fuxkcomfy e st).2 !! 1%nat = Some (EffPopen argv (popen e argv)).
Proof.
  intros Hrun Hcmd. unfold start_fuxkcomfy, start_failed. rewrite Hrun.
  pose proof (build_command_state e st) as Hst.
  destruct (build_command e st) as [built st0]; cbn [fst snd] in Hst, Hcmd; subst st0 built.
  rewrite join_items_strings.
  destruct (popen e argv) as [ex|p]; by split_and!.
Qed.

Lemma X6_witness :
  let st := init_launcher default_config [] in
  exists argv,
    is_running st = false
    /\ (build_command demo_env st).1 = inr (VStr <$> argv)
    /\ length (history (start_fuxkcomfy demo_env st).1.2) = 1%nat.
Proof.
  intros st.
  exists ["/usr/bin/python3"; "-s"; "main.py"; "--windows-standalone-build";
          "--port"; "8188"; "--listen"; "0.0.0.0"; "--auto-launch"].
  assert (H : (build_command demo_env st).1
              = inr (VStr <$> ["/usr/bin/python3"; "-s"; "main.py";
                               "--windows-standalone-build";
                               "--port"; "8188"; "--listen"; "0.0.0.0"; "--auto-launch"]))
    by (by vm_compute).
  split; [reflexivity|]. split; [exact H|].
  by rewrite (proj1 (X6_history_records_every_spawn_attempt demo_env st _ eq_refl H)).
Defined.

(** ** The shape of the command line *)

Lemma flag_tokens_none st :
  Forall (fun f => flag_enabled st f = false) flag_table -> flag_tokens st = [].
Proof.
  unfold flag_tokens. induction flag_table as [|f table IH]; intros H; [done|].
  apply Forall_cons in H as [Hf H]. cbn [flat_map]. by rewrite Hf, IH.
Qed.

(** X7: when no boolean option of the table is on (with [gpu_opt] true and
    [auto_launch] false), no value option is set and [extra_args] is empty,
    the command line is exactly interpreter, [-s main.py], the platform
    flag, the port and the listen address. *)
Theorem X7_no_option_gives_base_command (e : env) (st : launcher) :
  Forall (fun f => flag_enabled st f = false) flag_table ->
  truthy (get_config_value st "reserve_vram" (VStr "")) = false ->
  (truthy (get_config_value st "preview_method" (VStr "auto"))
   && py_ne (get_config_value st "preview_method" (VStr "auto")) (VStr "auto"))%bool = false ->
  truthy (get_config_value st "preview_size" (VStr "")) = false ->
  truthy (get_config_value st "extra_args" (VStr "")) = false ->
  (build_command e st).1
  = inr [interpreter e st; VStr "-s"; VStr "main.py"; VStr "--windows-standalone-build";
         VStr "--port"; get_config_value st "port" (VStr "8188");
         VStr "--listen"; get_config_value st "listen" (VStr "0.0.0.0")].
Proof.
  intros Hflags Hvram Hmethod Hsize Hextra.
  rewrite build_command_argv, flag_tokens_none by done.
  unfold value_options, extra_tokens, extra_of. cbv zeta.
  by rewrite Hvram, Hmethod, Hsize, Hextra.
Qed.

Lemma X7_witness :
  let st := init_launcher (<["auto_launch" := VBool false]> default_config) [] in
  Forall (fun f => flag_enabled st f = false) flag_table
  /\ (build_command demo_env st).1
     = inr (VStr <$> ["/usr/bin/python3"; "-s"; "main.py"; "--windows-standalone-build";
                      "--port"; "8188"; "--listen"; "0.0.0.0"]).
Proof.
  intros st.
  assert (H : Forall (fun f => flag_enabled st f = false) flag_table).
  { apply (bool_decide_unpack _). by vm_compute. }
  split; [exact H|].
  rewrite (X7_no_option_gives_base_command demo_env st H eq_refl eq_refl eq_refl eq_refl).
  by vm_compute.
Defined.

Lemma flat_map_if_sublist {A B} (P : A -> bool) (g : A -> B) (l : list A) :
  flat_map (fun x => if P x then [g x] else []) l `sublist_of` (g <$> l).
Proof.
  induction l as [|x l IH]; cbn [flat_map fmap list_fmap]; [constructor|].
  destruct (P x); cbn [app]; by constructor.
Qed.

Lemma flag_table_tokens_NoDup : NoDup ((fun f => VStr f.2) <$> flag_table).
Proof. apply (bool_decide_unpack _). by vm_compute. Qed.

(** X8: the flag tokens of a command line come right after the listen
    address, in the order of the table, each at most once; the value
    options and then the words of [extra_args] follow. *)
Theorem X8_flag_tokens_in_table_order (e : env) (st : launcher) (argv : list value) :
  (build_command e st).1 = inr argv ->
  exists extra,
    extra_tokens st = inr extra
    /\ argv = [interpreter e st; VStr "-s"; VStr "main.py"; VStr "--windows-standalone-build";
               VStr "--port"; get_config_value st "port" (VStr "8188");
               VStr "--listen"; get_config_value st "listen" (VStr "0.0.0.0")]
              ++ flag_tokens st ++ value_options st ++ extra
    /\ flag_tokens st `sublist_of` ((fun f => VStr f.2) <$> flag_table)
    /\ NoDup (flag_tokens st)
    /\ (length (flag_tokens st) <= 28)%nat.
Proof.
  rewrite build_command_argv. unfold with_extra.
  destruct (extra_tokens st) as [ex|extra]; [done|]. intros [= <-].
  assert (Hsub : flag_tokens st `sublist_of` ((fun f => VStr f.2) <$> flag_table))
    by apply flat_map_if_sublist.
  exists extra. split; [done|]. split; [by rewrite <- !app_assoc|]. split; [done|].
  split; [by eapply sublist_NoDup; [apply flag_table_tokens_NoDup|]|].
  apply sublist_length in Hsub. by rewrite length_fmap in Hsub.
Qed.

Lemma X8_witness :
  let st := init_launcher (<["lowvram" := VBool true]> default_config) [] in
  exists argv,
    (build_command demo_env st).1 = inr argv
    /\ flag_tokens st = [VStr "--auto-launch"; VStr "--lowvram"]
    /\ NoDup (flag_tokens st).
Proof.
  intros st. eexists.
  assert (H : (build_command demo_env st).1
              = inr (VStr <$> ["/usr/bin/python3"; "-s"; "main.py";
                               "--windows-standalone-build"; "--port"; "8188";
                               "--listen"; "0.0.0.0"; "--auto-launch"; "--lowvram"]))
    by (by vm_compute).
  split; [exact H|]. split; [by vm_compute|].
  by destruct (X8_flag_tokens_in_table_order demo_env st _ H) as (? & _ & _ & _ & ? & _).
Defined.

(** ** Words of [extra_args] *)

Lemma split_aux_word cur s :
  Forall (fun c => PyStr.is_space c = false) cur ->
  Forall (fun w => w <> "" /\ space_free w = true) (PyStr.split_aux cur s).
Proof.
  assert (Hword : forall cur, cur <> [] ->
            Forall (fun c => PyStr.is_space c = false) cur ->
            String.string_of_list_ascii (rev cur) <> ""
            /\ space_free (String.string_of_list_ascii (rev cur)) = true).
  { intros cur' Hne Hall. split.
    - destruct cur' as [|c cur']; [done|]. cbn [rev].
      destruct (rev cur'); discriminate.
    - apply Forall_rev in Hall. clear Hne. induction Hall as [|c l Hc Hl IH]; [done|].
      cbn. by rewrite Hc, IH. }
  revert cur. induction s as [|c s IH]; intros cur Hcur; cbn [PyStr.split_aux].
  - destruct cur as [|c0 cur]; [constructor|].
    constructor; [|constructor]. by apply Hword.
  - destruct (PyStr.is_space c) eqn:Hc.
    + destruct cur as [|c0 cur]; [by apply IH|].
      constructor; [by apply Hword | by apply IH].
    + apply IH. by constructor.
Qed.

Lemma split_all_space s : all_space s = true -> PyStr.split s = [].
Proof.
  unfold PyStr.split. induction s as [|c s IH]; [done|].
  cbn [all_space PyStr.split_aux]. intros [Hc Hs]%andb_true_iff. by rewrite Hc, IH.
Qed.

Lemma append_empty_r s : s +:+ "" = s.
Proof. induction s as [|c s IH]; [done|]. by rewrite append_cons, IH. Qed.

(** Reading a word and the space after it. *)
Lemma split_aux_app_word w cur rest :
  space_free w = true ->
  PyStr.split_aux cur (w +:+ rest)
  = PyStr.split_aux (rev (String.list_ascii_of_string w) ++ cur) rest.
Proof.
  revert cur. induction w as [|c w IH]; intros cur Hw; [done|].
  cbn [space_free] in Hw. apply andb_true_iff in Hw as [Hc Hw].
  rewrite append_cons. cbn [PyStr.split_aux String.list_ascii_of_string rev].
  apply negb_true_iff in Hc. rewrite Hc, IH by done. by rewrite <- app_assoc.
Qed.

Lemma split_join_words ws :
  Forall (fun w => w <> "" /\ space_free w = true) ws ->
  PyStr.split (PyStr.join " " ws) = ws.
Proof.
  unfold PyStr.split. induction 1 as [|w ws [Hne Hw] Hws IH]; [done|].
  assert (Hback : String.string_of_list_ascii
                    (rev (rev (String.list_ascii_of_string w) ++ [])) = w).
  { by rewrite app_nil_r, rev_involutive, String.string_of_list_ascii_of_string. }
  assert (Hcur : rev (String.list_ascii_of_string w) ++ [] <> []).
  { rewrite app_nil_r. destruct w as [|c w]; [done|]. cbn.
    intros H. by apply app_eq_nil in H as [_ ?]. }
  destruct ws as [|w' ws].
  - cbn [PyStr.join]. rewrite <- (append_empty_r w) at 1.
    rewrite (split_aux_app_word w [] "") by done. cbn [PyStr.split_aux].
    destruct (rev (String.list_ascii_of_string w) ++ []) eqn:Hc; [done|].
    by rewrite Hback.
  - change (PyStr.join " " (w :: w' :: ws)) with (w +:+ " " +:+ PyStr.join " " (w' :: ws)).
    rewrite (split_aux_app_word w []) by done.
    change (" " +:+ PyStr.join " " (w' :: ws))
      with (String " "%char (PyStr.join " " (w' :: ws))).
    cbn [PyStr.split_aux].
    change (PyStr.is_space " ") with true. cbv iota.
    destruct (rev (String.list_ascii_of_string w) ++ []) eqn:Hc; [done|].
    by rewrite Hback, IH.
Qed.

Lemma ascii_only_of_list (l : list ascii) :
  Forall (fun c => (nat_of_ascii c <? 128)%nat = true) l ->
  ascii_only (String.string_of_list_ascii l) = true.
Proof.
  induction 1 as [|c l Hc Hl IH]; [done|].
  cbn [String.string_of_list_ascii ascii_only]. by rewrite Hc, IH.
Qed.

Lemma split_aux_ascii cur s :
  Forall (fun c => (nat_of_ascii c <? 128)%nat = true) cur ->
  ascii_only s = true ->
  Forall (fun w => ascii_only w = true) (PyStr.split_aux cur s).
Proof.
  revert cur. induction s as [|c s IH]; intros cur Hcur Hs.
  - cbn [PyStr.split_aux]. destruct cur as [|c' cur']; [done|].
    apply Forall_singleton, ascii_only_of_list. by apply Forall_rev.
  - cbn [ascii_only] in Hs. apply andb_true_iff in Hs as [Hc Hs].
    cbn [PyStr.split_aux]. destruct (PyStr.is_space c).
    + destruct cur as [|c' cur']; [by apply IH|].
      apply Forall_cons. split; [|by apply IH].
      apply ascii_only_of_list. by apply Forall_rev.
    + apply IH; [|done]. by apply Forall_cons.
Qed.

(** X9: for an [extra_args] string of ASCII characters, the words
    [build_command] takes from it are ASCII, non-empty and free of white
    space; a string of white space only adds no word; and joining the
    words with single spaces and splitting again gives the same words. *)
Theorem X9_extra_args_words (s : string) :
  ascii_only s = true ->
  exists ws,
    extra_of (VStr s) = inr (VStr <$> ws)
    /\ ws = PyStr.split s
    /\ Forall (fun w => ascii_only w = true /\ w <> "" /\ space_free w = true) ws
    /\ (all_space s = true -> ws = [])
    /\ PyStr.split (PyStr.join " " ws) = ws.
Proof.
  intros Hascii.
  exists (PyStr.split s).
  assert (Hws : Forall (fun w => w <> "" /\ space_free w = true) (PyStr.split s))
    by (by apply split_aux_word).
  assert (Has : Forall (fun w => ascii_only w = true) (PyStr.split s))
    by (by apply split_aux_ascii).
  split.
  - unfold extra_of. cbn [truthy]. destruct (String.eqb_spec s "") as [->|_]; done.
  - split; [done|]. split.
    { apply Forall_and. by split. }
    split; [apply split_all_space|].
    by apply split_join_words.
Qed.

Lemma X9_witness :
  ascii_only "  	 " = true
  /\ all_space "  	 " = true
  /\ extra_of (VStr "  	 ") = inr []
  /\ ascii_only " --cache-lru  8 " = true
  /\ extra_of (VStr " --cache-lru  8 ") = inr [VStr "--cache-lru"; VStr "8"].
Proof.
  split; [reflexivity|]. split; [reflexivity|].
  destruct (X9_extra_args_words "  	 " eq_refl) as (ws & H1 & _ & _ & H2 & _).
  rewrite H1, (H2 eq_refl). split; [reflexivity|]. split; [reflexivity|].
  destruct (X9_extra_args_words " --cache-lru  8 " eq_refl) as (ws' & H1' & -> & _).
  rewrite H1'. reflexivity.
Defined.

(** ** Configuration: updates and loading *)

Lemma update_config_lookup updates st key dflt :
  get_config_value (update_config updates st) key dflt
  = default (get_config_value st key dflt) (updates !! key).
Proof.
  unfold get_config_value, update_config. cbn [config].
  rewrite lookup_union. by destruct (updates !! key), (config st !! key).
Qed.

(** X10: [update_config] merges: a key of the update reads back with its
    new value, every other key as before, and nothing but the
    configuration changes (a running process keeps running with its old
    command line); the next command line built has the token of every
    table option the update switched on. *)
Theorem X10_update_config_merges (e : env) (updates : gmap string value) (st : launcher) :
  let st' := update_config updates st in
  (forall key dflt v, updates !! key = Some v -> get_config_value st' key dflt = v)
  /\ (forall key dflt, updates !! key = None ->
        get_config_value st' key dflt = get_config_value st key dflt)
  /\ process st' = process st /\ is_running st' = is_running st
  /\ logs st' = logs st /\ history st' = history st
  /\ restart_attempts st' = restart_attempts st
  /\ start_time st' = start_time st /\ process_pid st' = process_pid st
  /\ (forall key dflt tok argv,
        (key, dflt, false, tok) ∈ flag_table ->
        updates !! key = Some (VBool true) ->
        (build_command e st').1 = inr argv ->
        VStr tok ∈ argv).
Proof.
  intros st'. split_and!; try done.
  - intros key dflt v Hv. subst st'. by rewrite update_config_lookup, Hv.
  - intros key dflt Hv. subst st'. by rewrite update_config_lookup, Hv.
  - intros key dflt tok argv Hrow Hv. rewrite build_command_argv. unfold with_extra.
    destruct (extra_tokens st') as [ex|extra]; [done|]. intros [= <-].
    rewrite !elem_of_cons, !elem_of_app. do 8 right. left; left.
    apply flag_tokens_elem. exists (key, dflt, false, tok). split; [done|]. split; [done|].
    unfold flag_enabled. subst st'. by rewrite update_config_lookup, Hv.
Qed.

Lemma X10_witness :
  let st := self started_machine in
  let updates : gmap string value := {[ "highvram" := VBool true ]} in
  ("highvram", false, false, "--highvram") ∈ flag_table
  /\ updates !! "highvram" = Some (VBool true)
  /\ is_running (update_config updates st) = true
  /\ exists argv,
       (build_command demo_env (update_config updates st)).1 = inr argv
       /\ VStr "--highvram" ∈ argv.
Proof.
  intros st updates.
  assert (Hrow : ("highvram", false, false, "--highvram") ∈ flag_table).
  { apply (bool_decide_unpack _). by vm_compute. }
  assert (Hup : updates !! "highvram" = Some (VBool true)) by (by vm_compute).
  split; [exact Hrow|]. split; [exact Hup|]. split; [by vm_compute|].
  eexists. split; [by vm_compute|].
  refine (proj2 (proj2 (proj2 (proj2 (proj2 (proj2 (proj2 (proj2 (proj2
            (X10_update_config_merges demo_env updates st)))))))))
          "highvram" false "--highvram" _ Hrow Hup _).
  by vm_compute.
Defined.

Lemma flag_table_defaults :
  Forall (fun f => default_config !! f.1.1.1 = Some (VBool f.1.1.2)) flag_table.
Proof. apply (bool_decide_unpack _). by vm_compute. Qed.

(** X11: the configuration [ConfigManager.load] returns has every key of
    the default configuration; a key of the file has the file's value, also
    when the defaults do not know it; a key missing from the file has its
    default.  So for a key of the defaults the fall-back written at the
    call of [get_config_value] is never used, and a table option missing
    from the file counts as its default in [default_config], which is the
    fall-back [build_command] writes. *)
Theorem X11_load_merges_file_over_defaults (file : option (gmap string value))
    (hist : list history_entry) :
  let cfg := config_load file in
  let st := init_launcher cfg hist in
  (forall key, is_Some (default_config !! key) -> is_Some (cfg !! key))
  /\ (forall c key v, file = Some c -> c !! key = Some v -> cfg !! key = Some v)
  /\ (forall key, (forall c, file = Some c -> c !! key = None) ->
        cfg !! key = default_config !! key)
  /\ (forall key d d', is_Some (default_config !! key) ->
        get_config_value st key d = get_config_value st key d')
  /\ (forall key dflt inverted tok,
        (key, dflt, inverted, tok) ∈ flag_table ->
        (forall c, file = Some c -> c !! key = None) ->
        flag_enabled st (key, dflt, inverted, tok) = xorb inverted dflt).
Proof.
  intros cfg st.
  assert (Hdef : forall key, is_Some (default_config !! key) -> is_Some (cfg !! key)).
  { intros key Hk. subst cfg. destruct file as [c|]; cbn [config_load]; [|done].
    rewrite lookup_union_is_Some. by right. }
  assert (Hmiss : forall key, (forall c, file = Some c -> c !! key = None) ->
            cfg !! key = default_config !! key).
  { intros key Hk. subst cfg. destruct file as [c|]; cbn [config_load]; [|done].
    by rewrite lookup_union_r by (by apply Hk). }
  split_and!; try done.
  - intros c key v -> Hv. subst cfg. cbn [config_load].
    by rewrite lookup_union_l' by (by rewrite Hv).
  - intros key d d' Hk. unfold get_config_value. subst st. cbn [config init_launcher].
    by destruct (Hdef key Hk) as [v ->].
  - intros key dflt inverted tok Hrow Hk.
    pose proof flag_table_defaults as Ht. rewrite Forall_forall in Ht.
    specialize (Ht _ Hrow). cbn [fst snd] in Ht.
    unfold flag_enabled, get_config_value. subst st. cbn [config init_launcher].
    by rewrite (Hmiss key Hk), Ht.
Qed.

Lemma X11_witness :
  let file : option (gmap string value) :=
    Some {[ "lowvram" := VBool true; "my_note" := VStr "x" ]} in
  config_load file !! "lowvram" = Some (VBool true)
  /\ config_load file !! "my_note" = Some (VStr "x")
  /\ config_load file !! "port" = Some (VStr "8188")
  /\ is_Some (config_load file !! "auto_restart").
Proof.
  intros file.
  destruct (X11_load_merges_file_over_defaults file []) as (H1 & H2 & H3 & _).
  split; [apply (H2 _ "lowvram" _ eq_refl); by vm_compute|].
  split; [apply (H2 _ "my_note" _ eq_refl); by vm_compute|].
  split.
  - rewrite (H3 "port"); [by vm_compute|]. intros c [= <-]. by vm_compute.
  - apply H1. eexists. vm_compute. reflexivity.
Defined.

(** ** The history file *)

Lemma last_50_spec (h : list history_entry) :
  last_50 h = drop (length h - 50) h.
Proof. unfold last_50. rewrite (py_slice_last 50) by lia. reflexivity. Qed.

(** X12: what [save_history] writes is the last 50 entries of the history
    (all of it when there are at most 50), oldest first; [load_history]
    reads such a file back unchanged. *)
Theorem X12_history_file_keeps_last_50 (h : list history_entry) :
  (length (save_history h) <= 50)%nat
  /\ (exists older, h = older ++ save_history h
                    /\ length older = (length h - 50)%nat)
  /\ ((length h <= 50)%nat -> save_history h = h)
  /\ load_history (Some (save_history h)) = save_history h
  /\ (forall entry, save_history (h ++ [entry]) = save_history (save_history h ++ [entry]))
  /\ (forall entry, last (save_history (h ++ [entry])) = Some entry).
Proof.
  unfold save_history, load_history. rewrite !last_50_spec.
  split; [rewrite length_drop; lia|]. split.
  { exists (take (length h - 50) h). rewrite take_drop. split; [done|].
    rewrite length_take. lia. }
  split.
  { intros Hle. replace (length h - 50)%nat with 0%nat by lia. done. }
  split.
  { rewrite length_drop.
    replace (length h - (length h - 50) - 50)%nat with 0%nat by lia. done. }
  split.
  - intros entry. rewrite !last_50_spec, !length_app, length_drop. cbn [length].
    destruct (decide (length h <= 50)%nat) as [Hle|Hgt].
    + replace (length h - 50)%nat with 0%nat by lia. cbn [drop].
      f_equal. lia.
    + rewrite drop_app_le by lia.
      replace (length h - (length h - 50) + 1 - 50)%nat with 1%nat by lia.
      rewrite drop_app_le by (rewrite length_drop; lia).
      rewrite drop_drop. do 2 f_equal. lia.
  - intros entry. rewrite last_50_spec, length_app. cbn [length].
    rewrite drop_app_le by lia. apply last_snoc.
Qed.

Lemma X12_witness :
  let h := replicate 60 {| h_timestamp := "t"; h_command := "c"; h_config := ∅ |} in
  length (save_history h) = 50%nat
  /\ save_history (take 7 h) = take 7 h.
Proof.
  intros h. split; [by vm_compute|].
  apply (proj1 (proj2 (proj2 (X12_history_file_keeps_last_50 (take 7 h))))).
  vm_compute. lia.
Defined.

(** ** Restart and repeated stops *)



(** X14: once stop has returned, a second stop (the old process being
    gone) answers "Process not running" and leaves the launcher with no
    handle, no remembered pid and the flag false; from then on stop
    changes nothing at all. *)
Theorem X14_stop_again_clears_handle_then_idles (e1 e2 e3 : env) (f1 f2 f3 : bool)
    (st : launcher) :
  consistent st ->
  let st1 := (stop_fuxkcomfy e1 f1 st).2 in
  (forall p, process st1 = Some p -> psutil_is_running e2 (pid p) = false) ->
  let r2 := (stop_fuxkcomfy e2 f2 st1).1 in
  let st2 := (stop_fuxkcomfy e2 f2 st1).2 in
  r2 = mk_result false "Process not running" None
  /\ process st2 = None /\ is_running st2 = false /\ process_pid st2 = None
  /\ sv_pid (status st2) = None
  /\ stop_fuxkcomfy e3 f3 st2 = (mk_result false "Process not running" None, st2).
Proof.
  intros Hc st1 Hdead.
  assert (H1 : is_running st1 = false /\ process_pid st1 = None).
  { pose proof (stop_consistent e1 f1 st Hc) as [Hc1 Hc2]. fold st1 in Hc1, Hc2.
    subst st1. destruct (stop_outcomes e1 f1 st) as [(Hp & Ht & -> & _)|[H|H]].
    - destruct Hc as [Ha Hb]. split; [|by apply Hb].
      destruct (is_running st); [by destruct (Ha eq_refl) | done].
    - by destruct H as (p & _ & _ & _ & -> & _).
    - by destruct H as (? & ? & _). }
  destruct H1 as [Hrun1 Hpid1].
  assert (H2 : stop_fuxkcomfy e2 f2 st1
               = (mk_result false "Process not running" None,
                  (stop_fuxkcomfy e2 f2 st1).2)
               /\ process (stop_fuxkcomfy e2 f2 st1).2 = None
               /\ is_running (stop_fuxkcomfy e2 f2 st1).2 = false
               /\ process_pid (stop_fuxkcomfy e2 f2 st1).2 = None).
  { unfold stop_fuxkcomfy, stop_confirmed_dead.
    destruct (process st1) as [p|] eqn:Hp.
    - rewrite Hrun1. cbn [negb]. by rewrite (Hdead p eq_refl).
    - by rewrite Hpid1. }
  destruct H2 as (Hr2 & Hp2 & Hrun2 & Hpid2).
  split; [by rewrite Hr2|]. split; [done|]. split; [done|]. split; [done|].
  split; [unfold status; cbn [sv_pid]; by rewrite Hp2|].
  unfold stop_fuxkcomfy at 1. by rewrite Hp2, Hpid2.
Qed.

Lemma X14_witness :
  consistent (self started_machine)
  /\ (forall p, process (stop_fuxkcomfy live_env false (self started_machine)).2 = Some p ->
        psutil_is_running demo_env (pid p) = false)
  /\ sv_pid (status (stop_fuxkcomfy live_env false (self started_machine)).2) = Some 4242
  /\ sv_pid (status (stop_fuxkcomfy demo_env false
                       (stop_fuxkcomfy live_env false (self started_machine)).2).2) = None.
Proof.
  assert (H1 : consistent (self started_machine)).
  { split; [by vm_compute | intros H; by vm_compute in H]. }
  assert (H2 : forall p,
            process (stop_fuxkcomfy live_env false (self started_machine)).2 = Some p ->
            psutil_is_running demo_env (pid p) = false) by done.
  split; [exact H1|]. split; [exact H2|]. split; [by vm_compute|].
  by destruct (X14_stop_again_clears_handle_then_idles live_env demo_env demo_env
                 false false false _ H1 H2) as (_ & _ & _ & _ & ? & _).
Defined.

(** ** When the reader wins the race *)





(** ** Searching the logs *)

Lemma lower_char_idempotent c : PyStr.lower_char (PyStr.lower_char c) = PyStr.lower_char c.
Proof. destruct c as [[] [] [] [] [] [] [] []]; reflexivity. Qed.

Lemma lower_idempotent s : PyStr.lower (PyStr.lower s) = PyStr.lower s.
Proof. induction s as [|c s IH]; [done|]. cbn. by rewrite lower_char_idempotent, IH. Qed.

Lemma lower_empty s : PyStr.lower s = "" <-> s = "".
Proof. by destruct s. Qed.

(** X16: the search of [get_logs] ignores the case of ASCII letters, in
    the search string as in the messages: two search strings that are equal
    once lowered select the same entries, and an entry is selected by its
    own message written in any case. *)
Theorem X16_log_search_ignores_case (st : launcher) (level_filter s s' : string) (limit : Z) :
  PyStr.lower s = PyStr.lower s' ->
  get_logs st level_filter s limit = get_logs st level_filter s' limit
  /\ forall log, PyStr.lower (message log) = PyStr.lower s ->
       passesb "all" s log = true.
Proof.
  intros Heq. split.
  - rewrite !get_logs_filter. do 2 f_equal. apply filter_ext. intros log.
    unfold passesb. rewrite Heq. do 2 f_equal.
    destruct (String.eqb_spec s "") as [->|Hs], (String.eqb_spec s' "") as [->|Hs'];
      try done.
    + exfalso. apply Hs'. apply (proj1 (lower_empty s')). by rewrite <- Heq.
    + exfalso. apply Hs. apply (proj1 (lower_empty s)). by rewrite Heq.
  - intros log Hlog. apply passesb_spec. split; [by left|]. right.
    rewrite Hlog. exists "", "". by rewrite append_nil_l, append_empty_r.
Qed.

Lemma X16_witness :
  PyStr.lower "CUDA" = PyStr.lower "cuda"
  /\ get_logs three_logs "all" "CUDA" 10 = get_logs three_logs "all" "cuda" 10
  /\ get_logs three_logs "all" "cuda" 10 = [to_dict (demo_entry "CUDA error" "error")].
Proof.
  split; [reflexivity|].
  split; [exact (proj1 (X16_log_search_ignores_case three_logs "all" "CUDA" "cuda" 10 eq_refl))|].
  by vm_compute.
Defined.

(** ** Uptime *)

Lemma fmt_02d_nonneg n : 0 <= n -> fmt_02d n = PyStr.zfill 2 (Z.to_N n).
Proof. intros H. unfold fmt_02d. by destruct (Z.ltb_spec n 0); [lia|]. Qed.

(** X17: for a launcher with a running child, the uptime shown does not
    stop when the child exits by itself ([read_output] leaves the start
    time in place); it is cleared by a stop.  While shown, with the clock
    not before the start time, it is hours, minutes and seconds of the
    whole seconds elapsed, two digits at least each, minutes and seconds
    below 60. *)
Theorem X17_uptime_runs_until_stop (e e' : env) (code : Z) (force : bool)
    (st : launcher) (p : Popen) :
  process st = Some p ->
  is_running st = true ->
  get_uptime e' (read_output_exit e code st) = get_uptime e' st
  /\ get_uptime e' (stop_fuxkcomfy e force st).2 = None
  /\ forall t, start_time st = Some t -> t <> 0 -> t <= time_time e' ->
       exists h m s,
         get_uptime e' st
         = Some (PyStr.zfill 2 (Z.to_N h) +:+ ":" +:+ PyStr.zfill 2 (Z.to_N m)
                 +:+ ":" +:+ PyStr.zfill 2 (Z.to_N s))
         /\ 0 <= h /\ 0 <= m < 60 /\ 0 <= s < 60
         /\ 3600 * h + 60 * m + s = (time_time e' - t) / 1000000.
Proof.
  intros Hp Hrun. split; [|split].
  - unfold get_uptime, read_output_exit. rewrite Hp. by destruct (code =? 0).
  - destruct (stop_outcomes e force st) as [(Hnone & _)|[(q & _ & Hoff & _)|H]].
    + by rewrite Hp in Hnone.
    + by rewrite Hrun in Hoff.
    + destruct H as (_ & _ & Hstart & _). unfold get_uptime. by rewrite Hstart.
  - intros t Ht Hne Hle. unfold get_uptime. rewrite Ht.
    destruct (Z.eqb_spec t 0) as [|_]; [done|].
    set (u := Z.quot (time_time e' - t) 1000000).
    assert (Hu : u = (time_time e' - t) / 1000000) by (apply Z.quot_div_nonneg; lia).
    assert (Hu0 : 0 <= u) by (rewrite Hu; apply Z.div_pos; lia).
    exists (u / 3600), ((u mod 3600) / 60), (u mod 60).
    unfold format_uptime. cbv zeta.
    rewrite !fmt_02d_nonneg by (try apply Z.div_pos; try apply Z.mod_pos_bound; lia).
    split; [done|]. rewrite <- Hu.
    split; [apply Z.div_pos; lia|].
    clearbody u. clear Hu. Z.div_mod_to_equations. lia.
Qed.

Lemma X17_witness :
  let st := self started_machine in
  let later : env :=
    {| sys_executable := sys_executable demo_env; isfile := isfile demo_env;
       dt_now := dt_now demo_env; time_time := time_time demo_env + 3725000000;
       popen := popen demo_env; poll := poll demo_env;
       psutil_is_running := psutil_is_running demo_env;
       kill_tree := kill_tree demo_env; final_kill := final_kill demo_env |} in
  process st = Some {| pid := 4242 |}
  /\ is_running st = true
  /\ get_uptime later st = Some "01:02:05"
  /\ get_uptime later (read_output_exit demo_env 1 st) = Some "01:02:05"
  /\ get_uptime later (stop_fuxkcomfy live_env false st).2 = None.
Proof.
  intros st later.
  assert (H1 : process st = Some {| pid := 4242 |}) by (by vm_compute).
  assert (H2 : is_running st = true) by (by vm_compute).
  assert (H3 : get_uptime later st = Some "01:02:05") by (by vm_compute).
  split; [exact H1|]. split; [exact H2|]. split; [exact H3|].
  destruct (X17_uptime_runs_until_stop demo_env later 1 false st _ H1 H2) as (Ha & _ & _).
  destruct (X17_uptime_runs_until_stop live_env later 1 false st _ H1 H2) as (_ & Hb & _).
  split; [by rewrite Ha | exact Hb].
Defined.

(** ** Presets *)

(** X18: through any sequence of requests to save or delete presets, a
    preset named "default" that is there stays there.  A delete of
    "default" or of a name that is not stored is refused with "Cannot
    delete default preset" and changes nothing; a delete of another stored
    name removes that preset and no other. *)
Theorem X18_default_preset_is_never_deleted (ops : list preset_op)
    (presets : gmap string (gmap string value)) (saved : bool) (name : string) :
  (is_Some (presets !! "default") ->
     is_Some (foldl preset_step presets ops !! "default"))
  /\ (name = "default" \/ presets !! name = None ->
        delete_preset saved name presets
        = ({| pa_success := false; pa_message := Some "Cannot delete default preset" |},
           presets))
  /\ (name <> "default" -> is_Some (presets !! name) ->
        (delete_preset saved name presets).1
        = {| pa_success := saved; pa_message := None |}
        /\ (delete_preset saved name presets).2 !! name = None
        /\ forall other, other <> name ->
             (delete_preset saved name presets).2 !! other = presets !! other).
Proof.
  split; [|split].
  - revert presets. induction ops as [|op ops IH]; intros presets Hd; [done|].
    cbn [foldl]. apply IH. destruct op as [sv nm cfg|sv nm]; cbn [preset_step].
    + unfold save_preset. destruct nm as [n|], cfg as [c|]; try done.
      destruct (_ && _)%bool; [|done]. cbn [snd].
      rewrite lookup_insert_is_Some. destruct (decide (n = "default")); auto.
    + unfold delete_preset. destruct (_ && _)%bool eqn:Hc; [|done]. cbn [snd].
      apply andb_true_iff in Hc as [_ Hn]. apply negb_true_iff in Hn.
      rewrite lookup_delete_ne; [done|]. intros ->. by rewrite String.eqb_refl in Hn.
  - intros [->|Hnone]; unfold delete_preset.
    + by rewrite String.eqb_refl, andb_false_r.
    + rewrite bool_decide_eq_false_2; [done|]. rewrite Hnone. by intros [? ?].
  - intros Hne Hsome. unfold delete_preset.
    rewrite bool_decide_eq_true_2 by done.
    destruct (String.eqb_spec name "default") as [|_]; [done|]. cbn [negb andb fst snd].
    split; [done|]. split; [apply lookup_delete_eq|].
    intros other Ho. by apply lookup_delete_ne.
Qed.

Lemma X18_witness :
  let presets : gmap string (gmap string value) :=
    {[ "default" := {[ "port" := VStr "8188" ]}; "mine" := {[ "lowvram" := VBool true ]} ]} in
  let ops := [PresetDelete true "default"; PresetDelete true "mine";
              PresetSave true (Some "fast") (Some {[ "highvram" := VBool true ]})] in
  is_Some (presets !! "default")
  /\ is_Some (foldl preset_step presets ops !! "default")
  /\ "mine" <> "default" /\ is_Some (presets !! "mine")
  /\ (delete_preset true "mine" presets).2 !! "mine" = None.
Proof.
  intros presets ops.
  assert (H1 : is_Some (presets !! "default")).
  { apply (bool_decide_unpack _). vm_compute. reflexivity. }
  assert (H2 : is_Some (presets !! "mine")).
  { apply (bool_decide_unpack _). vm_compute. reflexivity. }
  split; [exact H1|].
  split; [exact (proj1 (X18_default_preset_is_never_deleted ops presets true "mine") H1)|].
  split; [discriminate|]. split; [exact H2|].
  exact (proj1 (proj2 (proj2 (proj2 (X18_default_preset_is_never_deleted ops presets
                                       true "mine")) ltac:(discriminate) H2))).
Defined.

(** X19: a save with a non-empty name and a non-empty configuration stores
    the preset in memory, replacing one of that name, whatever the write to
    disk returns (the answer carries that result), and touches no other
    preset; a save with a missing or empty name or configuration is
    refused with "Invalid preset data" and changes nothing. *)
Theorem X19_save_preset_stores_or_refuses (saved : bool) (name : option string)
    (cfg : option (gmap string value)) (presets : gmap string (gmap string value)) :
  (forall n c, name = Some n -> cfg = Some c -> n <> "" -> c <> ∅ ->
     (save_preset saved name cfg presets).1 = {| pa_success := saved; pa_message := None |}
     /\ (save_preset saved name cfg presets).2 !! n = Some c
     /\ forall other, other <> n ->
          (save_preset saved name cfg presets).2 !! other = presets !! other)
  /\ (name = None \/ name = Some "" \/ cfg = None \/ cfg = Some ∅ ->
        save_preset saved name cfg presets
        = ({| pa_success := false; pa_message := Some "Invalid preset data" |}, presets)).
Proof.
  split.
  - intros n c -> -> Hn Hc. unfold save_preset.
    destruct (String.eqb_spec n "") as [|_]; [done|].
    rewrite bool_decide_eq_false_2 by done. cbn [negb andb fst snd].
    split; [done|]. split; [apply lookup_insert_eq|].
    intros other Ho. by apply lookup_insert_ne.
  - unfold save_preset. intros [-> | [-> | [-> | ->]]].
    + done.
    + by destruct cfg.
    + by destruct name.
    + destruct name as [n|]; [|done].
      by rewrite bool_decide_eq_true_2, andb_false_r by done.
Qed.

Lemma X19_witness :
  let presets : gmap string (gmap string value) :=
    {[ "default" := {[ "port" := VStr "8188" ]} ]} in
  let mine : gmap string value := {[ "port" := VStr "9000" ]} in
  (save_preset false (Some "default") (Some mine) presets).2 !! "default" = Some mine
  /\ save_preset true (Some "x") (Some ∅) presets
     = ({| pa_success := false; pa_message := Some "Invalid preset data" |}, presets).
Proof.
  intros presets mine. split.
  - refine (proj1 (proj2 (proj1 (X19_save_preset_stores_or_refuses false (Some "default")
              (Some mine) presets) "default" mine eq_refl eq_refl _ _))); [discriminate|].
    intros H. apply (f_equal (fun m => m !! "port")) in H. by vm_compute in H.
  - apply (proj2 (X19_save_preset_stores_or_refuses true (Some "x") (Some ∅) presets)).
    by right; right; right.
Defined.
